(** * PDFImager: the conversion task of [pdf_imager.py]

    A shallow embedding of [PDFImagerApp._browse_pdf], [_browse_output],
    [_log], [_start_conversion], [_convert], [_update_progress],
    [_conversion_done] and [_conversion_error], with the pieces of the
    Python library they call ([str.strip], [str.lower], [os.path],
    [os.makedirs], f-string formatting, [fitz]).

    Conventions.
    - A Python [str] is a [string]; one [ascii] stands for one character
      (code points below 256).
    - A Python [int] is a [Z]; the page counter of [enumerate] is a [nat].
    - A Python [float] is a binary64 primitive float.
    - An exception is the text [str(e)] gives for it.
    - The file system maps a path, given as the list of its components below
      the working directory, to a directory or to a file with its content.
      Paths are POSIX paths; [..] and symbolic links are not interpreted.
    - The rasterisation engine is not part of the program: a page carries the
      outcome of rendering it and of saving its pixmap.
    - Two threads run: the worker runs [_convert], the main thread runs
      [_start_conversion] and every callback handed to [self.root.after]. *)

From Stdlib Require Import ZArith String Ascii List Lia Bool.
From Stdlib Require Import Floats.
From Stdlib Require Import DecimalString DecimalNat.
From stdpp Require Import base option list gmap strings.

Open Scope Z_scope.
Open Scope string_scope.
Open Scope list_scope.

(** ** Results of fallible calls *)

Inductive Exc (A : Type) : Type :=
| OK (a : A)
| Err (e : string).
Arguments OK {A} a.
Arguments Err {A} e.

(** ** Python strings *)

Module PyStr.

(** [str.isspace] on one character below 256. *)
Definition isspace (c : ascii) : bool :=
  let n := nat_of_ascii c in
  ((9 <=? n)%nat && (n <=? 13)%nat)
  || ((28 <=? n)%nat && (n <=? 32)%nat)
  || (n =? 133)%nat || (n =? 160)%nat.

Fixpoint lstrip (s : string) : string :=
  match s with
  | String c r => if isspace c then lstrip r else s
  | EmptyString => EmptyString
  end.

(** [rstrip] keeps a character when it is not a space or when something
    is kept after it. *)
Fixpoint rstrip (s : string) : string :=
  match s with
  | String c r =>
      match rstrip r with
      | EmptyString => if isspace c then EmptyString else String c EmptyString
      | r' => String c r'
      end
  | EmptyString => EmptyString
  end.

Definition strip (s : string) : string := rstrip (lstrip s).

Definition lower_char (c : ascii) : ascii :=
  let n := nat_of_ascii c in
  if ((65 <=? n)%nat && (n <=? 90)%nat) then ascii_of_nat (n + 32) else c.

Definition upper_char (c : ascii) : ascii :=
  let n := nat_of_ascii c in
  if ((97 <=? n)%nat && (n <=? 122)%nat) then ascii_of_nat (n - 32) else c.

Fixpoint map_chars (f : ascii -> ascii) (s : string) : string :=
  match s with
  | String c r => String (f c) (map_chars f r)
  | EmptyString => EmptyString
  end.

Definition lower : string -> string := map_chars lower_char.
Definition upper : string -> string := map_chars upper_char.

(** [not s] for a string: true when [s] is empty. *)
Definition falsy (s : string) : bool :=
  match s with EmptyString => true | _ => false end.

Fixpoint zeros (n : nat) : string :=
  match n with
  | O => EmptyString
  | S k => String "0" (zeros k)
  end.

(** [str(n)] for a natural number. *)
Definition decimal (n : nat) : string := NilZero.string_of_uint (Nat.to_uint n).

(** [f"{n:04d}"]: the decimal digits, filled with zeros on the left up to
    width 4; a longer number is not cut. *)
Definition format_04d (n : nat) : string :=
  let d := decimal n in
  zeros (4 - String.length d) +:+ d.

End PyStr.

(** ** [os.path] on POSIX paths *)

Module OsPath.

Definition is_sep (c : ascii) : bool := Ascii.eqb c "/".
Definition is_dot (c : ascii) : bool := Ascii.eqb c ".".

Fixpoint has_sep (s : string) : bool :=
  match s with
  | String c r => is_sep c || has_sep r
  | EmptyString => false
  end.

(** [basename p]: what follows the last separator. *)
Fixpoint basename (p : string) : string :=
  match p with
  | String c r => if is_sep c || has_sep r then basename r else p
  | EmptyString => EmptyString
  end.

(** [s] up to its last dot, when it has one. *)
Fixpoint cut_last_dot (s : string) : option string :=
  match s with
  | String c r =>
      match cut_last_dot r with
      | Some r' => Some (String c r')
      | None => if is_dot c then Some EmptyString else None
      end
  | EmptyString => None
  end.

(** [splitext(p)[0]] for a name without separator: the extension starts at
    the last dot, and the dots that open the name are not an extension. *)
Fixpoint splitext_root (p : string) : string :=
  match p with
  | String c r =>
      if is_dot c then String c (splitext_root r)
      else match cut_last_dot p with
           | Some root => root
           | None => p
           end
  | EmptyString => EmptyString
  end.

Fixpoint ends_with_sep (s : string) : bool :=
  match s with
  | String c EmptyString => is_sep c
  | String _ r => ends_with_sep r
  | EmptyString => false
  end.

Definition starts_with_sep (s : string) : bool :=
  match s with
  | String c _ => is_sep c
  | EmptyString => false
  end.

(** [os.path.join(a, b)]. *)
Definition join (a b : string) : string :=
  if starts_with_sep b then b
  else if PyStr.falsy a || ends_with_sep a then a +:+ b
  else a +:+ "/" +:+ b.

(** [p.split("/")]. *)
Fixpoint split_sep (p : string) : list string :=
  match p with
  | String c r =>
      if is_sep c then EmptyString :: split_sep r
      else match split_sep r with
           | h :: t => String c h :: t
           | [] => [String c EmptyString]
           end
  | EmptyString => [EmptyString]
  end.

Definition real_component (s : string) : bool :=
  negb (PyStr.falsy s) && negb (String.eqb s ".").

(** The components the kernel walks for [p]: empty ones (doubled or final
    separators) and [.] are skipped. *)
Definition components (p : string) : list string :=
  filter (fun s => Is_true (real_component s)) (split_sep p).

(** [p[:p.rfind("/") + 1]]: [p] up to its last separator, with it. *)
Fixpoint head_of (p : string) : string :=
  match p with
  | String c r => if is_sep c || has_sep r then String c (head_of r) else EmptyString
  | EmptyString => EmptyString
  end.

Fixpoint all_sep (s : string) : bool :=
  match s with
  | String c r => is_sep c && all_sep r
  | EmptyString => true
  end.

(** [s.rstrip("/")]. *)
Fixpoint rstrip_sep (s : string) : string :=
  match s with
  | String c r =>
      match rstrip_sep r with
      | EmptyString => if is_sep c then EmptyString else String c EmptyString
      | r' => String c r'
      end
  | EmptyString => EmptyString
  end.

(** [os.path.dirname(p)]: the head, without its final separators unless it
    is made of separators alone. *)
Definition dirname (p : string) : string :=
  let head := head_of p in
  if negb (PyStr.falsy head) && negb (all_sep head) then rstrip_sep head else head.

End OsPath.

(** ** The rasterisation engine and the file system *)

(** [fitz.Matrix(sx, sy)]: a scaling. *)
Record Matrix : Type := fitz_Matrix { m_sx : float; m_sy : float }.

(** A page of a document, with what the engine does with it. *)
Record Page : Type := mkPage {
  render_error : option string;   (* [page.get_pixmap] raises this *)
  save_error : option string      (* [pix.save] raises this *)
}.

Record Pixmap : Type := mkPixmap { pix_page : Page; pix_matrix : Matrix }.

Inductive Content : Type :=
| Pdf (pages : list Page)     (* a document the engine can open *)
| Garbage                     (* a file the engine cannot open *)
| Image (pix : Pixmap).       (* a saved pixmap *)

Inductive Node : Type :=
| Dir
| File (c : Content).

Module Os.

Definition isdir (fs : gmap (list string) Node) (q : list string) : bool :=
  match q with
  | [] => true
  | _ => match fs !! q with Some Dir => true | _ => false end
  end.

(** A path whose last piece is empty or [.] only names a directory. *)
Definition names_dir (p : string) : bool :=
  negb (OsPath.real_component (List.last (OsPath.split_sep p) EmptyString)).

(** [os.path.isfile(p)]. *)
Definition isfile (fs : gmap (list string) Node) (p : string) : bool :=
  negb (names_dir p) &&
  match fs !! OsPath.components p with Some (File _) => true | _ => false end.

(** [os.makedirs] walks the path from the top: a directory that is there is
    kept, a missing one is made, a file in the way raises. *)
Fixpoint mkdirs_from (fs : gmap (list string) Node) (above rest : list string)
  : Exc (gmap (list string) Node) :=
  match rest with
  | [] => OK fs
  | c :: rest' =>
      let q := above ++ [c] in
      match fs !! q with
      | Some (File _) =>
          Err (match rest' with
               | [] => "[Errno 17] File exists"
               | _ => "[Errno 20] Not a directory"
               end)
      | Some Dir => mkdirs_from fs q rest'
      | None => mkdirs_from (<[q := Dir]> fs) q rest'
      end
  end.

(** [os.makedirs(p, exist_ok=True)]. *)
Definition makedirs (fs : gmap (list string) Node) (p : string)
  : Exc (gmap (list string) Node) :=
  mkdirs_from fs [] (OsPath.components p).

End Os.

Module Fitz.

(** [fitz.open(path)]. *)
Definition open (fs : gmap (list string) Node) (path : string) : Exc (list Page) :=
  match fs !! OsPath.components path with
  | Some (File (Pdf pages)) => OK pages
  | Some (File _) => Err ("Failed to open file '" +:+ path +:+ "'.")
  | _ => Err ("no such file: '" +:+ path +:+ "'")
  end.

(** [page.get_pixmap(matrix=mat)]. *)
Definition get_pixmap (page : Page) (mat : Matrix) : Exc Pixmap :=
  match render_error page with
  | Some e => Err e
  | None => OK (mkPixmap page mat)
  end.

(** [pix.save(out_file)]. *)
Definition save (pix : Pixmap) (out_file : string) (fs : gmap (list string) Node)
  : Exc (gmap (list string) Node) :=
  match save_error (pix_page pix) with
  | Some e => Err e
  | None => OK (<[OsPath.components out_file := File (Image pix)]> fs)
  end.

End Fitz.

(** ** Python numbers *)

(** [float(z)]: the nearest binary64 number, ties to even; an integer that
    rounds beyond the largest one raises. *)
Definition int_to_float (z : Z) : Exc float :=
  if (Z.abs z <? 2 ^ 1024 - 2 ^ 970)%Z
  then OK (SF2Prim (binary_normalize prec emax z 0 false))
  else Err "int too large to convert to float".

(** [z / d] for an integer [z] and a float [d] other than zero. *)
Definition truediv (z : Z) (d : float) : Exc float :=
  match int_to_float z with
  | OK x => OK (x / d)%float
  | Err e => Err e
  end.

(** ** State and exceptions *)

Definition M (St A : Type) : Type := St -> Exc A * St.

Definition ret {St A} (a : A) : M St A := fun s => (OK a, s).

Definition bind {St A B} (m : M St A) (k : A -> M St B) : M St B :=
  fun s =>
    match m s with
    | (OK a, s') => k a s'
    | (Err e, s') => (Err e, s')
    end.

Definition raise {St A} (e : string) : M St A := fun s => (Err e, s).

Definition lift {St A} (r : Exc A) : M St A := fun s => (r, s).

Definition modify {St} (f : St -> St) : M St unit := fun s => (OK tt, f s).

Definition gets {St A} (f : St -> A) : M St A := fun s => (OK (f s), s).

(** [try: body / except Exception as e: handler e]. *)
Definition try_except {St A} (body : M St A) (handler : string -> M St A) : M St A :=
  fun s =>
    match body s with
    | (OK a, s') => (OK a, s')
    | (Err e, s') => handler e s'
    end.

Declare Scope py_scope.
Delimit Scope py_scope with py.
Notation "'let!' x ':=' m 'in' k" := (bind m (fun x => k))
  (at level 10, x name, m at level 100, k at level 200) : py_scope.
Notation "'do!' m 'in' k" := (bind m (fun _ => k))
  (at level 10, m at level 100, k at level 200) : py_scope.
Open Scope py_scope.

(** ** The application object and what surrounds it *)

Inductive Status : Type :=
| st_waiting
| st_converting (current total : nat)
| st_done
| st_error.

(** The lines [_log] receives. *)
Inductive LogLine : Type :=
| log_start (total : nat) (dpi : Z) (format : string)
| log_page (current total : nat) (name : string)
| log_done (total : nat) (output_dir : string)
| log_error (err : string).

Inductive BtnState : Type := normal | disabled.

(** The texts the message boxes show. *)
Inductive Message : Type :=
| msg_select_valid_pdf
| msg_give_output_dir
| msg_saved (total : nat)
| msg_text (err : string).

Inductive Dialog : Type :=
| showerror (m : Message)
| showinfo (m : Message).

(** [self]: the Tk variables, the flag and the widgets. *)
Record App : Type := mkApp {
  pdf_path : string;
  output_dir : string;
  dpi : Z;
  fmt : string;
  is_running : bool;
  progress_maximum : nat;
  progress_value : nat;
  label_status : Status;
  text_log : list LogLine;
  btn_run : BtnState
}.

Definition set_pdf_path (p : string) (a : App) : App :=
  mkApp p (output_dir a) (dpi a) (fmt a) (is_running a) (progress_maximum a)
        (progress_value a) (label_status a) (text_log a) (btn_run a).

Definition set_output_dir (p : string) (a : App) : App :=
  mkApp (pdf_path a) p (dpi a) (fmt a) (is_running a) (progress_maximum a)
        (progress_value a) (label_status a) (text_log a) (btn_run a).

Definition set_is_running (b : bool) (a : App) : App :=
  mkApp (pdf_path a) (output_dir a) (dpi a) (fmt a) b (progress_maximum a)
        (progress_value a) (label_status a) (text_log a) (btn_run a).

Definition set_progress_maximum (n : nat) (a : App) : App :=
  mkApp (pdf_path a) (output_dir a) (dpi a) (fmt a) (is_running a) n
        (progress_value a) (label_status a) (text_log a) (btn_run a).

Definition set_progress_value (n : nat) (a : App) : App :=
  mkApp (pdf_path a) (output_dir a) (dpi a) (fmt a) (is_running a)
        (progress_maximum a) n (label_status a) (text_log a) (btn_run a).

Definition set_label_status (st : Status) (a : App) : App :=
  mkApp (pdf_path a) (output_dir a) (dpi a) (fmt a) (is_running a)
        (progress_maximum a) (progress_value a) st (text_log a) (btn_run a).

Definition set_text_log (l : list LogLine) (a : App) : App :=
  mkApp (pdf_path a) (output_dir a) (dpi a) (fmt a) (is_running a)
        (progress_maximum a) (progress_value a) (label_status a) l (btn_run a).

Definition set_btn_run (b : BtnState) (a : App) : App :=
  mkApp (pdf_path a) (output_dir a) (dpi a) (fmt a) (is_running a)
        (progress_maximum a) (progress_value a) (label_status a) (text_log a) b.

(** The main thread's world: [self], the disk, the message boxes shown, the
    threads started (with the arguments of [_convert]) and the exceptions Tk
    reported for callbacks that raised. *)
Record Sys : Type := mkSys {
  self : App;
  fs : gmap (list string) Node;
  dialogs : list Dialog;
  threads : list (string * string);
  reported : list string
}.

Definition on_app (f : App -> App) (s : Sys) : Sys :=
  mkSys (f (self s)) (fs s) (dialogs s) (threads s) (reported s).

Definition set_fs (d : gmap (list string) Node) (s : Sys) : Sys :=
  mkSys (self s) d (dialogs s) (threads s) (reported s).

Definition add_dialog (d : Dialog) (s : Sys) : Sys :=
  mkSys (self s) (fs s) (dialogs s ++ [d]) (threads s) (reported s).

Definition add_thread (pdf out : string) (s : Sys) : Sys :=
  mkSys (self s) (fs s) (dialogs s) (threads s ++ [(pdf, out)]) (reported s).

Definition report (e : string) (s : Sys) : Sys :=
  mkSys (self s) (fs s) (dialogs s) (threads s) (reported s ++ [e]).

(** ** The worker thread *)

(** The lambdas [_convert] hands to [self.root.after], one per source line.
    Only the lambda for [_update_progress] binds values when it is made
    ([v=i, f=out_file]); every other name in a body is a variable of
    [_convert], read when the lambda is called. *)
Inductive Closure : Type :=
| lam_progress_init                            (* line 149 *)
| lam_log_start                                (* line 150 *)
| lam_update_progress (v : nat) (f : string)   (* line 158 *)
| lam_conversion_done                          (* line 161 *)
| lam_conversion_error.                        (* line 164 *)

(** The variables of [_convert] that lambdas read. [None]: not bound. *)
Record Frame : Type := mkFrame {
  v_output_dir : string;
  v_total : option nat;
  v_ext : option string;
  v_dpi : option Z;
  v_e : option string
}.

Inductive Handle : Type := no_doc | doc_open | doc_closed.

(** What the worker does to the outside, in order. *)
Inductive Effect : Type :=
| open_call (path : string)
| fmt_get_call                       (* [self.fmt.get()] *)
| dpi_get_call                       (* [self.dpi.get()] *)
| get_pixmap_call (i : nat) (mat : Matrix)
| save_call (i : nat) (out_file : string)
| after_call (cb : Closure)
| close_call.

Record Worker : Type := mkWorker {
  w_fs : gmap (list string) Node;
  w_doc : Handle;
  w_cells : Frame;
  w_trace : list Effect
}.

Definition new_worker (d : gmap (list string) Node) (output_dir : string) : Worker :=
  mkWorker d no_doc (mkFrame output_dir None None None None) [].

Definition emit (e : Effect) : M Worker unit :=
  modify (fun w => mkWorker (w_fs w) (w_doc w) (w_cells w) (w_trace w ++ [e])).

Definition set_doc (h : Handle) : M Worker unit :=
  modify (fun w => mkWorker (w_fs w) h (w_cells w) (w_trace w)).

Definition set_cells (f : Frame -> Frame) : M Worker unit :=
  modify (fun w => mkWorker (w_fs w) (w_doc w) (f (w_cells w)) (w_trace w)).

Definition assign_total (n : nat) : M Worker unit :=
  set_cells (fun c => mkFrame (v_output_dir c) (Some n) (v_ext c) (v_dpi c) (v_e c)).

Definition assign_ext (x : string) : M Worker unit :=
  set_cells (fun c => mkFrame (v_output_dir c) (v_total c) (Some x) (v_dpi c) (v_e c)).

Definition assign_dpi (z : Z) : M Worker unit :=
  set_cells (fun c => mkFrame (v_output_dir c) (v_total c) (v_ext c) (Some z) (v_e c)).

Definition assign_e (e : option string) : M Worker unit :=
  set_cells (fun c => mkFrame (v_output_dir c) (v_total c) (v_ext c) (v_dpi c) e).

(** [self.root.after(0, cb)]. *)
Definition after (cb : Closure) : M Worker unit := emit (after_call cb).

Definition fitz_open (path : string) : M Worker (list Page) :=
  do! emit (open_call path) in
  let! doc := (fun w => (Fitz.open (w_fs w) path, w)) in
  do! set_doc doc_open in
  ret doc.

(** [self.fmt.get()] and [self.dpi.get()]: the Tk variables as they are when
    the worker asks. *)
Definition fmt_get (self : App) : M Worker string :=
  do! emit fmt_get_call in
  ret (fmt self).

Definition dpi_get (self : App) : M Worker Z :=
  do! emit dpi_get_call in
  ret (dpi self).

Definition get_pixmap (i : nat) (page : Page) (mat : Matrix) : M Worker Pixmap :=
  do! emit (get_pixmap_call i mat) in
  lift (Fitz.get_pixmap page mat).

Definition pix_save (i : nat) (pix : Pixmap) (out_file : string) : M Worker unit :=
  do! emit (save_call i out_file) in
  let! d := (fun w => (Fitz.save pix out_file (w_fs w), w)) in
  modify (fun w => mkWorker d (w_doc w) (w_cells w) (w_trace w)).

Definition doc_close : M Worker unit :=
  do! emit close_call in
  set_doc doc_closed.

(** [for i, page in enumerate(doc, start=i): body]. *)
Fixpoint for_enumerate (body : nat -> Page -> M Worker unit) (i : nat) (doc : list Page)
  : M Worker unit :=
  match doc with
  | [] => ret tt
  | page :: rest => do! body i page in for_enumerate body (S i) rest
  end.

(** ["jpg" if ext == "jpeg" else "png"]. *)
Definition file_ext_of (ext : string) : string :=
  if String.eqb ext "jpeg" then "jpg" else "png".

(** [f"{base_name}_page{i:04d}.{file_ext}"]. *)
Definition page_file_name (base_name : string) (i : nat) (file_ext : string) : string :=
  base_name +:+ "_page" +:+ PyStr.format_04d i +:+ "." +:+ file_ext.

(** The body of the page loop, lines 153 to 158. *)
Definition convert_page (output_dir base_name ext : string) (mat : Matrix)
    (i : nat) (page : Page) : M Worker unit :=
  let! pix := get_pixmap i page mat in
  let file_ext := file_ext_of ext in
  let out_file := OsPath.join output_dir (page_file_name base_name i file_ext) in
  do! pix_save i pix out_file in
  after (lam_update_progress i out_file).

(** [_convert], lines 139 to 164. The [except] clause binds [e], runs its
    body and unbinds [e] again when it ends. *)
Definition _convert (self : App) (pdf_path output_dir : string) : M Worker unit :=
  try_except
    (let! doc := fitz_open pdf_path in
     let total := length doc in
     do! assign_total total in
     let base_name := OsPath.splitext_root (OsPath.basename pdf_path) in
     let! fmt := fmt_get self in
     let ext := PyStr.lower fmt in
     do! assign_ext ext in
     let! dpi := dpi_get self in
     do! assign_dpi dpi in
     let! zoom := lift (truediv dpi 72) in
     let mat := fitz_Matrix zoom zoom in
     do! after lam_progress_init in
     do! after lam_log_start in
     do! for_enumerate (convert_page output_dir base_name ext mat) 1 doc in
     do! doc_close in
     after lam_conversion_done)
    (fun e =>
     do! assign_e (Some e) in
     do! after lam_conversion_error in
     assign_e None).

(** The worker from its start to its end. *)
Definition run_convert (self : App) (d : gmap (list string) Node)
    (pdf_path output_dir : string) : Worker :=
  snd (_convert self pdf_path output_dir (new_worker d output_dir)).

(** The callbacks of a trace, in the order of the calls of [after]. *)
Definition callbacks (t : list Effect) : list Closure :=
  omap (fun e => match e with after_call cb => Some cb | _ => None end) t.

(** The callbacks the worker queued. *)
Definition scheduled (w : Worker) : list Closure := callbacks (w_trace w).

(** ** The main thread *)

Definition configure_app (f : App -> App) : M Sys unit := modify (on_app f).

(** [_log], lines 109 to 113. *)
Definition _log (msg : LogLine) : M Sys unit :=
  configure_app (fun a => set_text_log (text_log a ++ [msg]) a).

Definition messagebox (d : Dialog) : M Sys unit := modify (add_dialog d).

(** [_browse_pdf], lines 92 to 101; [chosen] is what the file dialog
    returns, the empty string when the user cancels. *)
Definition _browse_pdf (chosen : string) : M Sys unit :=
  let path := chosen in
  if negb (PyStr.falsy path) then
    do! configure_app (set_pdf_path path) in
    let! out := gets (fun s => output_dir (self s)) in
    if PyStr.falsy out then configure_app (set_output_dir (OsPath.dirname path))
    else ret tt
  else ret tt.

(** [_browse_output], lines 103 to 106. *)
Definition _browse_output (chosen : string) : M Sys unit :=
  let path := chosen in
  if negb (PyStr.falsy path) then configure_app (set_output_dir path)
  else ret tt.

(** [_update_progress], lines 166 to 169. *)
Definition _update_progress (current total : nat) (filepath : string) : M Sys unit :=
  do! configure_app (set_progress_value current) in
  do! configure_app (set_label_status (st_converting current total)) in
  _log (log_page current total (OsPath.basename filepath)).

(** [_conversion_done], lines 171 to 176. *)
Definition _conversion_done (total : nat) (output_dir : string) : M Sys unit :=
  do! configure_app (set_label_status st_done) in
  do! _log (log_done total output_dir) in
  do! configure_app (set_is_running false) in
  do! configure_app (set_btn_run normal) in
  messagebox (showinfo (msg_saved total)).

(** [_conversion_error], lines 178 to 183. *)
Definition _conversion_error (err : string) : M Sys unit :=
  do! configure_app (set_label_status st_error) in
  do! _log (log_error err) in
  do! configure_app (set_is_running false) in
  do! configure_app (set_btn_run normal) in
  messagebox (showerror (msg_text err)).

(** [_start_conversion], lines 116 to 137. *)
Definition _start_conversion : M Sys unit :=
  let! pdf := gets (fun s => PyStr.strip (pdf_path (self s))) in
  let! out := gets (fun s => PyStr.strip (output_dir (self s))) in
  let! is_file := gets (fun s => Os.isfile (fs s) pdf) in
  if PyStr.falsy pdf || negb is_file then
    messagebox (showerror msg_select_valid_pdf)
  else if PyStr.falsy out then
    messagebox (showerror msg_give_output_dir)
  else
    let! running := gets (fun s => is_running (self s)) in
    if running then ret tt
    else
      let! d := (fun s => (Os.makedirs (fs s) out, s)) in
      do! modify (set_fs d) in
      do! configure_app (set_is_running true) in
      do! configure_app (set_btn_run disabled) in
      modify (add_thread pdf out).

(** What a lambda calls once its arguments are evaluated. *)
Inductive UiCall : Type :=
| call_progress_configure (maximum value : nat)
| call_log (msg : LogLine)
| call_update_progress (current total : nat) (filepath : string)
| call_conversion_done (total : nat) (output_dir : string)
| call_conversion_error (err : string).

(** Reading a variable of [_convert] from a lambda. *)
Definition read_cell {A} (name : string) (c : option A) : Exc A :=
  match c with
  | Some a => OK a
  | None =>
      Err ("cannot access free variable '" +:+ name
           +:+ "' where it is not associated with a value in enclosing scope")
  end.

(** The call a lambda makes, for the variables as they are when it runs. *)
Definition eval_closure (cells : Frame) (cb : Closure) : Exc UiCall :=
  match cb with
  | lam_progress_init =>
      match read_cell "total" (v_total cells) with
      | OK total => OK (call_progress_configure total 0)
      | Err e => Err e
      end
  | lam_log_start =>
      match read_cell "total" (v_total cells),
            read_cell "dpi" (v_dpi cells),
            read_cell "ext" (v_ext cells) with
      | OK total, OK dpi, OK ext =>
          OK (call_log (log_start total dpi (PyStr.upper ext)))
      | Err e, _, _ | _, Err e, _ | _, _, Err e => Err e
      end
  | lam_update_progress v f =>
      match read_cell "total" (v_total cells) with
      | OK total => OK (call_update_progress v total f)
      | Err e => Err e
      end
  | lam_conversion_done =>
      match read_cell "total" (v_total cells) with
      | OK total => OK (call_conversion_done total (v_output_dir cells))
      | Err e => Err e
      end
  | lam_conversion_error =>
      match read_cell "e" (v_e cells) with
      | OK e => OK (call_conversion_error e)
      | Err e => Err e
      end
  end.

Definition perform (c : UiCall) : M Sys unit :=
  match c with
  | call_progress_configure maximum value =>
      do! configure_app (set_progress_maximum maximum) in
      configure_app (set_progress_value value)
  | call_log msg => _log msg
  | call_update_progress current total filepath =>
      _update_progress current total filepath
  | call_conversion_done total output_dir => _conversion_done total output_dir
  | call_conversion_error err => _conversion_error err
  end.

(** ** The events of the specification *)

Inductive ConversionEvent : Type :=
| Started (total : nat)
| PageDone (index totalSoFar : nat) (producedFilePath : string)
| Finished (total : nat) (outputDir : string)
| Failed (message : string).

(** The event the observer has received once a call has run: [Started] is
    the opening log line, [PageDone] a call of [_update_progress] with the
    value it leaves in the progress bar, [Finished] and [Failed] the calls
    of [_conversion_done] and [_conversion_error]. Resetting the progress
    bar is no event. *)
Definition observe (c : UiCall) (s_after : Sys) : list ConversionEvent :=
  match c with
  | call_progress_configure _ _ => []
  | call_log (log_start total _ _) => [Started total]
  | call_log _ => []
  | call_update_progress current _ filepath =>
      [PageDone current (progress_value (self s_after)) filepath]
  | call_conversion_done total output_dir => [Finished total output_dir]
  | call_conversion_error err => [Failed err]
  end.

(** Tk's main loop runs the queued callbacks in the order they were queued.
    A callback that raises is reported and the loop goes on. *)
Fixpoint mainloop (cells : Frame) (queue : list Closure) (s : Sys)
  : list ConversionEvent * Sys :=
  match queue with
  | [] => ([], s)
  | cb :: rest =>
      match eval_closure cells cb with
      | Err e => mainloop cells rest (report e s)
      | OK c =>
          let s1 := snd (perform c s) in
          let (evs, s2) := mainloop cells rest s1 in
          (observe c s1 ++ evs, s2)
      end
  end.

(** One task: the worker runs [_convert] to its end on the disk of [s], then
    the main loop runs what the worker queued. [after] only queues: the
    worker goes on at once, so a callback runs when the main loop comes to
    it, with the variables of [_convert] as the worker has left them by
    then. Of these only [e] ever changes after a lambda that reads it is
    queued (it is unbound as the [except] clause ends, the statement after
    the call of [after]); [error_lambda_while_bound] below covers a main
    loop that would win this race. *)
Definition task (s : Sys) (pdf_path output_dir : string) : list ConversionEvent * Sys :=
  let w := run_convert (self s) (fs s) pdf_path output_dir in
  mainloop (w_cells w) (scheduled w) (set_fs (w_fs w) s).

(** ** What a run leaves behind, page by page *)

(** The path of the file of page [i], lines 154 and 155. *)
Definition out_file_of (output_dir base_name ext : string) (i : nat) : string :=
  OsPath.join output_dir (page_file_name base_name i (file_ext_of ext)).

(** The effects of the pages of [doc] that go through, counted from [i]. *)
Fixpoint page_effects (f : nat -> string) (mat : Matrix) (i : nat) (doc : list Page)
  : list Effect :=
  match doc with
  | [] => []
  | _ :: rest =>
      get_pixmap_call i mat :: save_call i (f i)
        :: after_call (lam_update_progress i (f i))
        :: page_effects f mat (S i) rest
  end.

(** The disk once the pages of [doc] are saved, counted from [i]. *)
Fixpoint save_pages (f : nat -> string) (mat : Matrix) (i : nat) (doc : list Page)
    (d : gmap (list string) Node) : gmap (list string) Node :=
  match doc with
  | [] => d
  | page :: rest =>
      save_pages f mat (S i) rest
        (<[OsPath.components (f i) := File (Image (mkPixmap page mat))]> d)
  end.

Definition page_ok (page : Page) : Prop :=
  render_error page = None /\ save_error page = None.

(** Rendering the page raises [e], or rendering goes through and saving
    raises [e]. *)
Definition page_fails (page : Page) (e : string) : Prop :=
  render_error page = Some e \/ (render_error page = None /\ save_error page = Some e).

(** The effects of a page that fails. *)
Definition failing_effects (f : nat -> string) (mat : Matrix) (i : nat) (page : Page)
  : list Effect :=
  match render_error page with
  | Some _ => [get_pixmap_call i mat]
  | None => [get_pixmap_call i mat; save_call i (f i)]
  end.

(** The path [_convert] gives the file of page [i]. *)
Definition task_file (self : App) (pdf_path output_dir : string) (i : nat) : string :=
  out_file_of output_dir (OsPath.splitext_root (OsPath.basename pdf_path))
    (PyStr.lower (fmt self)) i.

(** The variables of [_convert] once line 145 has run and no exception is
    being handled. *)
Definition cells_of (self : App) (output_dir : string) (total : nat) : Frame :=
  mkFrame output_dir (Some total) (Some (PyStr.lower (fmt self))) (Some (dpi self)) None.

(** The lambdas of line 158 for the pages [i], [i+1], ... ([n] of them). *)
Definition update_closures (f : nat -> string) (i n : nat) : list Closure :=
  map (fun j => lam_update_progress j (f j)) (seq i n).

(** The events they stand for. *)
Definition page_events (f : nat -> string) (i n : nat) : list ConversionEvent :=
  map (fun j => PageDone j j (f j)) (seq i n).

(** The DPI is an integer [float] accepts. *)
Definition dpi_in_float_range (dpi : Z) : Prop :=
  (Z.abs dpi < 2 ^ 1024 - 2 ^ 970)%Z.

(** The render calls of a trace: page number and matrix. *)
Definition render_calls (t : list Effect) : list (nat * Matrix) :=
  omap (fun e => match e with get_pixmap_call i m => Some (i, m) | _ => None end) t.

(** The save calls of a trace: page number and path. *)
Definition save_calls (t : list Effect) : list (nat * string) :=
  omap (fun e => match e with save_call i f => Some (i, f) | _ => None end) t.

(** [int(s)] for a string of decimal digits. *)
Definition read_decimal (s : string) : option nat :=
  option_map Nat.of_uint (NilEmpty.uint_of_string s).

(** What Python says when the lambda of line 164 reads [e] unbound. *)
Definition name_error_e : string :=
  "cannot access free variable 'e' where it is not associated with a value in enclosing scope".

(** The trace has a call of [doc.close()]. *)
Definition closes (t : list Effect) : bool :=
  existsb (fun e => match e with close_call => true | _ => false end) t.


(** The directories [os.makedirs] goes through below [above]: the path of
    [rest] and its parents, from the top. *)
Fixpoint prefixes_from (above rest : list string) : list (list string) :=
  match rest with
  | [] => []
  | c :: rest' => (above ++ [c]) :: prefixes_from (above ++ [c]) rest'
  end.

(** The directory of a path and all its parents. *)
Definition dir_and_parents (p : string) : list (list string) :=
  prefixes_from [] (OsPath.components p).

Definition is_file_at (d : gmap (list string) Node) (q : list string) : bool :=
  match d !! q with Some (File _) => true | _ => false end.

(** No file sits where the directory or one of its parents has to be. *)
Definition creatable (d : gmap (list string) Node) (p : string) : bool :=
  forallb (fun q => negb (is_file_at d q)) (dir_and_parents p).

(** The two checks of lines 120 and 123 pass. *)
Definition inputs_pass (s : Sys) : Prop :=
  PyStr.falsy (PyStr.strip (pdf_path (self s))) = false
  /\ Os.isfile (fs s) (PyStr.strip (pdf_path (self s))) = true
  /\ PyStr.falsy (PyStr.strip (output_dir (self s))) = false.

(** The name of the file of page [i] in a run of [_convert]. *)
Definition task_name (self : App) (pdf_path : string) (i : nat) : string :=
  page_file_name (OsPath.splitext_root (OsPath.basename pdf_path)) i
    (file_ext_of (PyStr.lower (fmt self))).

(** Where that file is on the disk. *)
Definition task_key (self : App) (pdf_path output_dir : string) (i : nat)
  : list string :=
  OsPath.components output_dir ++ [task_name self pdf_path i].

(** The log lines of the pages [i], [i+1], ... ([n] of them). *)
Definition page_log (f : nat -> string) (total i n : nat) : list LogLine :=
  map (fun j => log_page j total (OsPath.basename (f j))) (seq i n).

(** The state once the main loop has run the callbacks of the pages [i],
    [i+1], ... ([n] of them). *)
Definition after_pages (f : nat -> string) (total i n : nat) (s : Sys) : Sys :=
  match n with
  | O => s
  | S m =>
      on_app (fun a =>
                set_text_log (text_log a ++ page_log f total i n)
                  (set_label_status (st_converting (i + m) total)
                     (set_progress_value (i + m) a))) s
  end.

(** The state once the main loop has run every callback of a task that went
    through all [total] pages. *)
Definition after_success (self0 : App) (f : nat -> string) (total : nat)
    (out : string) (d : gmap (list string) Node) (s : Sys) : Sys :=
  mkSys
    (mkApp (pdf_path (self s)) (output_dir (self s)) (dpi (self s)) (fmt (self s))
       false total total st_done
       (text_log (self s)
          ++ [log_start total (dpi self0) (PyStr.upper (PyStr.lower (fmt self0)))]
          ++ page_log f total 1 total ++ [log_done total out])
       normal)
    d (dialogs s ++ [showinfo (msg_saved total)]) (threads s) (reported s).

(** ** Sample inputs *)

Module Sample.

Definition good : Page := mkPage None None.
Definition unrenderable : Page := mkPage (Some "cannot render page") None.
Definition unsavable : Page := mkPage None (Some "[Errno 28] No space left on device").

(** A disk with a three-page document, two documents whose second page
    fails, a file that is no document, and no directory [out]. *)
Definition disk : gmap (list string) Node :=
  <[ ["docs"] := Dir ]>
  (<[ ["docs"; "deck.pdf"] := File (Pdf [good; good; good]) ]>
  (<[ ["docs"; "torn.pdf"] := File (Pdf [good; unrenderable; good]) ]>
  (<[ ["docs"; "full.pdf"] := File (Pdf [good; unsavable; good]) ]>
  (<[ ["docs"; "junk.pdf"] := File Garbage ]> ∅)))).

(** The window as the user has filled it in, before any conversion. *)
Definition idle (pdf out : string) (dpi : Z) (fmt : string) : Sys :=
  mkSys (mkApp pdf out dpi fmt false 0 0 st_waiting [] normal) disk [] [] [].

(** The same while a conversion of [deck.pdf] is under way. *)
Definition busy (pdf out : string) : Sys :=
  mkSys (mkApp pdf out 200 "PNG" true 3 1 (st_converting 1 3)
           [log_start 3 200 "PNG"; log_page 1 3 "deck_page0001.png"] disabled)
        disk [] [("docs/deck.pdf", "out")] [].

(** The state in which the worker of a conversion started from [idle]
    runs. *)
Definition started (pdf out : string) (dpi : Z) (fmt : string) : Sys :=
  snd (_start_conversion (idle pdf out dpi fmt)).

End Sample.

(** * Properties *)

(** ** The worker *)

Lemma dpi_in_range_mat dpi :
  dpi_in_float_range dpi -> exists zoom, truediv dpi 72 = OK zoom.
Proof.
  unfold dpi_in_float_range, truediv, int_to_float. intros H.
  apply Z.ltb_lt in H. rewrite H. eauto.
Qed.

Lemma convert_page_ok out base ext mat i page w :
  page_ok page ->
  convert_page out base ext mat i page w =
    (OK tt,
     mkWorker
       (<[OsPath.components (out_file_of out base ext i) :=
            File (Image (mkPixmap page mat))]> (w_fs w))
       (w_doc w) (w_cells w)
       (w_trace w ++ [get_pixmap_call i mat;
                      save_call i (out_file_of out base ext i);
                      after_call (lam_update_progress i (out_file_of out base ext i))])).
Proof.
  intros [Hr Hs].
  unfold convert_page, get_pixmap, pix_save, after, emit, bind, modify, lift,
    Fitz.get_pixmap, Fitz.save.
  cbn. rewrite Hr. cbn. rewrite Hs. cbn.
  rewrite <- !app_assoc. reflexivity.
Qed.

Lemma convert_page_fails out base ext mat i page e w :
  page_fails page e ->
  convert_page out base ext mat i page w =
    (Err e,
     mkWorker (w_fs w) (w_doc w) (w_cells w)
       (w_trace w ++ failing_effects (out_file_of out base ext) mat i page)).
Proof.
  unfold convert_page, get_pixmap, pix_save, after, emit, bind, modify, lift,
    Fitz.get_pixmap, Fitz.save, failing_effects.
  intros [Hr | [Hr Hs]]; cbn; rewrite Hr; cbn.
  - reflexivity.
  - rewrite Hs. cbn. rewrite <- !app_assoc. reflexivity.
Qed.

Lemma for_enumerate_ok out base ext mat doc :
  Forall page_ok doc ->
  forall i w,
    for_enumerate (convert_page out base ext mat) i doc w =
      (OK tt,
       mkWorker (save_pages (out_file_of out base ext) mat i doc (w_fs w))
         (w_doc w) (w_cells w)
         (w_trace w ++ page_effects (out_file_of out base ext) mat i doc)).
Proof.
  induction 1 as [|page rest Hp _ IH]; intros i w.
  - cbn. unfold ret. rewrite app_nil_r. destruct w; reflexivity.
  - cbn [for_enumerate]. unfold bind at 1.
    rewrite (convert_page_ok _ _ _ _ _ _ _ Hp), IH. cbn.
    rewrite <- app_assoc. reflexivity.
Qed.

Lemma for_enumerate_fails out base ext mat good bad rest e :
  Forall page_ok good ->
  page_fails bad e ->
  forall i w,
    for_enumerate (convert_page out base ext mat) i (good ++ bad :: rest) w =
      (Err e,
       mkWorker (save_pages (out_file_of out base ext) mat i good (w_fs w))
         (w_doc w) (w_cells w)
         (w_trace w ++ page_effects (out_file_of out base ext) mat i good
            ++ failing_effects (out_file_of out base ext) mat
                 (i + length good)%nat bad)).
Proof.
  intros Hgood Hbad. induction Hgood as [|page good Hp _ IH]; intros i w.
  - cbn [app for_enumerate]. unfold bind at 1.
    rewrite (convert_page_fails _ _ _ _ _ _ _ _ Hbad). cbn.
    rewrite Nat.add_0_r. reflexivity.
  - cbn [app for_enumerate]. unfold bind at 1.
    rewrite (convert_page_ok _ _ _ _ _ _ _ Hp), IH. cbn.
    rewrite <- app_assoc. cbn. rewrite Nat.add_succ_r. reflexivity.
Qed.

Ltac run_worker :=
  unfold run_convert, _convert, try_except, fitz_open, fmt_get, dpi_get,
    doc_close, after, emit,
    set_doc, assign_total, assign_ext, assign_dpi, assign_e, set_cells, bind,
    modify, lift, ret, new_worker.

(** Every page goes through. *)
Lemma run_convert_ok self d pdf out doc zoom :
  Fitz.open d pdf = OK doc ->
  truediv (dpi self) 72 = OK zoom ->
  Forall page_ok doc ->
  run_convert self d pdf out =
    mkWorker
      (save_pages (task_file self pdf out) (fitz_Matrix zoom zoom) 1 doc d)
      doc_closed
      (cells_of self out (length doc))
      ([open_call pdf; fmt_get_call; dpi_get_call;
        after_call lam_progress_init; after_call lam_log_start]
         ++ page_effects (task_file self pdf out) (fitz_Matrix zoom zoom) 1 doc
         ++ [close_call; after_call lam_conversion_done]).
Proof.
  intros Hopen Hzoom Hdoc. run_worker. cbn. rewrite Hopen. cbn.
  rewrite Hzoom. cbn. rewrite (for_enumerate_ok _ _ _ _ _ Hdoc). cbn.
  rewrite <- !app_assoc. reflexivity.
Qed.

(** A page fails after the pages of [good] went through. *)
Lemma run_convert_page_fails self d pdf out good bad rest e zoom :
  Fitz.open d pdf = OK (good ++ bad :: rest) ->
  truediv (dpi self) 72 = OK zoom ->
  Forall page_ok good ->
  page_fails bad e ->
  run_convert self d pdf out =
    mkWorker
      (save_pages (task_file self pdf out) (fitz_Matrix zoom zoom) 1 good d)
      doc_open
      (cells_of self out (length (good ++ bad :: rest)))
      ([open_call pdf; fmt_get_call; dpi_get_call;
        after_call lam_progress_init; after_call lam_log_start]
         ++ page_effects (task_file self pdf out) (fitz_Matrix zoom zoom) 1 good
         ++ failing_effects (task_file self pdf out) (fitz_Matrix zoom zoom)
              (1 + length good)%nat bad
         ++ [after_call lam_conversion_error]).
Proof.
  intros Hopen Hzoom Hgood Hbad. run_worker. cbn. rewrite Hopen. cbn.
  rewrite Hzoom. cbn.
  rewrite (for_enumerate_fails _ _ _ _ _ _ _ _ Hgood Hbad). cbn.
  rewrite <- !app_assoc. reflexivity.
Qed.

(** The document does not open. *)
Lemma run_convert_open_fails self d pdf out e :
  Fitz.open d pdf = Err e ->
  run_convert self d pdf out =
    mkWorker d no_doc (mkFrame out None None None None)
      [open_call pdf; after_call lam_conversion_error].
Proof.
  intros Hopen. run_worker. cbn. rewrite Hopen. reflexivity.
Qed.

(** ** The queue and the main loop *)

Lemma callbacks_app t1 t2 : callbacks (t1 ++ t2) = callbacks t1 ++ callbacks t2.
Proof. apply omap_app. Qed.

Lemma callbacks_page_effects f mat doc :
  forall i, callbacks (page_effects f mat i doc) = update_closures f i (length doc).
Proof.
  unfold update_closures. induction doc as [|page rest IH]; intros i; [reflexivity|].
  cbn. f_equal. apply IH.
Qed.

Lemma callbacks_failing_effects f mat i page :
  callbacks (failing_effects f mat i page) = [].
Proof. unfold failing_effects. destruct (render_error page); reflexivity. Qed.

Lemma mainloop_app cells q1 q2 :
  forall s,
    mainloop cells (q1 ++ q2) s =
      (fst (mainloop cells q1 s) ++ fst (mainloop cells q2 (snd (mainloop cells q1 s))),
       snd (mainloop cells q2 (snd (mainloop cells q1 s)))).
Proof.
  induction q1 as [|cb q1 IH]; intros s; cbn [app mainloop].
  - cbn. destruct (mainloop cells q2 s); reflexivity.
  - destruct (eval_closure cells cb) as [c|e].
    + rewrite IH. destruct (mainloop cells q1 _) as [evs s2]. cbn.
      rewrite app_assoc. reflexivity.
    + apply IH.
Qed.

(** The page callbacks deliver one [PageDone] each, whatever the state. *)
Lemma mainloop_updates cells f total n :
  v_total cells = Some total ->
  forall i s,
    fst (mainloop cells (update_closures f i n) s) = page_events f i n.
Proof.
  intros Ht. unfold update_closures, page_events.
  induction n as [|n IH]; intros i s; [reflexivity|].
  cbn [seq map mainloop eval_closure]. rewrite Ht. cbn [read_cell].
  specialize (IH (S i) (snd (perform (call_update_progress i total (f i)) s))).
  destruct (mainloop cells _ _) as [evs s2]. cbn in IH. subst evs.
  reflexivity.
Qed.

(** They touch neither the flag, the button, the dialogs, the threads, the
    disk nor the reports. *)
Lemma mainloop_updates_frame cells f total n :
  v_total cells = Some total ->
  forall i s,
    let s' := snd (mainloop cells (update_closures f i n) s) in
    is_running (self s') = is_running (self s)
    /\ btn_run (self s') = btn_run (self s)
    /\ dialogs s' = dialogs s /\ threads s' = threads s
    /\ fs s' = fs s /\ reported s' = reported s.
Proof.
  intros Ht. unfold update_closures.
  induction n as [|n IH]; intros i s; [cbn; tauto|].
  cbn [seq map mainloop eval_closure]. rewrite Ht. cbn [read_cell].
  specialize (IH (S i) (snd (perform (call_update_progress i total (f i)) s))).
  destruct (mainloop cells _ _) as [evs s2]. cbn in IH |- *. exact IH.
Qed.

(** ** The event stream of a task *)

Lemma scheduled_ok self d pdf out doc zoom :
  Fitz.open d pdf = OK doc ->
  truediv (dpi self) 72 = OK zoom ->
  Forall page_ok doc ->
  scheduled (run_convert self d pdf out) =
    [lam_progress_init; lam_log_start]
      ++ update_closures (task_file self pdf out) 1 (length doc)
      ++ [lam_conversion_done].
Proof.
  intros Hopen Hzoom Hdoc. unfold scheduled.
  rewrite (run_convert_ok _ _ _ _ _ _ Hopen Hzoom Hdoc). cbn [w_trace].
  rewrite !callbacks_app, callbacks_page_effects. reflexivity.
Qed.

Lemma scheduled_page_fails self d pdf out good bad rest e zoom :
  Fitz.open d pdf = OK (good ++ bad :: rest) ->
  truediv (dpi self) 72 = OK zoom ->
  Forall page_ok good ->
  page_fails bad e ->
  scheduled (run_convert self d pdf out) =
    [lam_progress_init; lam_log_start]
      ++ update_closures (task_file self pdf out) 1 (length good)
      ++ [lam_conversion_error].
Proof.
  intros Hopen Hzoom Hgood Hbad. unfold scheduled.
  rewrite (run_convert_page_fails _ _ _ _ _ _ _ _ _ Hopen Hzoom Hgood Hbad).
  cbn [w_trace].
  rewrite !callbacks_app, callbacks_page_effects, callbacks_failing_effects.
  reflexivity.
Qed.

(** C1. When the document opens with [N] pages, every page renders and
    saves, and the DPI is an integer [float] accepts, the observer receives
    [Started N], then [PageDone i i file_i] for [i] = 1, ..., [N] in this
    order, then [Finished N output_dir], and nothing else. *)
Theorem task_events_success (s : Sys) (pdf out : string) (doc : list Page) :
  Fitz.open (fs s) pdf = OK doc ->
  Forall page_ok doc ->
  dpi_in_float_range (dpi (self s)) ->
  fst (task s pdf out) =
    [Started (length doc)]
      ++ page_events (task_file (self s) pdf out) 1 (length doc)
      ++ [Finished (length doc) out].
Proof.
  intros Hopen Hdoc Hdpi.
  destruct (dpi_in_range_mat _ Hdpi) as [zoom Hzoom].
  unfold task. rewrite (scheduled_ok _ _ _ _ _ _ Hopen Hzoom Hdoc).
  rewrite (run_convert_ok _ _ _ _ _ _ Hopen Hzoom Hdoc). cbn [w_cells w_fs].
  set (cells := cells_of (self s) out (length doc)).
  assert (Ht : v_total cells = Some (length doc)) by reflexivity.
  cbn [app mainloop eval_closure]. rewrite Ht. cbn [read_cell v_dpi v_ext cells cells_of].
  rewrite mainloop_app. cbn [fst snd].
  rewrite (mainloop_updates _ _ _ _ Ht).
  cbn [mainloop eval_closure]. rewrite Ht. cbn. reflexivity.
Qed.

(** ** Runs that fail *)

Lemma doc_cases (doc : list Page) :
  Forall page_ok doc
  \/ exists good bad rest e,
       doc = good ++ bad :: rest /\ Forall page_ok good /\ page_fails bad e.
Proof.
  induction doc as [|page doc IH]; [left; constructor|].
  destruct (render_error page) as [e|] eqn:Hr.
  { right. exists [], page, doc, e. split; [reflexivity|]. split; [constructor|].
    left. exact Hr. }
  destruct (save_error page) as [e|] eqn:Hs.
  { right. exists [], page, doc, e. split; [reflexivity|]. split; [constructor|].
    right. split; assumption. }
  destruct IH as [Hok | (good & bad & rest & e & -> & Hgood & Hbad)].
  - left. constructor; [split; assumption | exact Hok].
  - right. exists (page :: good), bad, rest, e.
    split; [reflexivity|]. split; [|exact Hbad].
    constructor; [split; assumption | exact Hgood].
Qed.

(** The document opens and [dpi / 72.0] raises. *)
Lemma run_convert_scale_fails self d pdf out doc e :
  Fitz.open d pdf = OK doc ->
  truediv (dpi self) 72 = Err e ->
  run_convert self d pdf out =
    mkWorker d doc_open (cells_of self out (length doc))
      [open_call pdf; fmt_get_call; dpi_get_call; after_call lam_conversion_error].
Proof.
  intros Hopen Hzoom. run_worker. cbn. rewrite Hopen. cbn. rewrite Hzoom.
  reflexivity.
Qed.

(** When a page fails after [good], the observer receives [Started] and the
    [PageDone] of the pages of [good], and no [Failed]: the lambda of line
    164 reads [e] after the [except] clause has unbound it, raises, and
    [_conversion_error] never runs, so the flag stays set. The pages of
    [good] are on the disk. *)
Lemma task_page_failure (s : Sys) (pdf out : string) good bad rest e zoom :
  Fitz.open (fs s) pdf = OK (good ++ bad :: rest) ->
  truediv (dpi (self s)) 72 = OK zoom ->
  Forall page_ok good ->
  page_fails bad e ->
  fst (task s pdf out) =
    [Started (length (good ++ bad :: rest))]
      ++ page_events (task_file (self s) pdf out) 1 (length good)
  /\ reported (snd (task s pdf out)) = reported s ++ [name_error_e]
  /\ is_running (self (snd (task s pdf out))) = is_running (self s)
  /\ fs (snd (task s pdf out)) =
       save_pages (task_file (self s) pdf out) (fitz_Matrix zoom zoom) 1 good (fs s).
Proof.
  intros Hopen Hzoom Hgood Hbad. unfold task.
  rewrite (scheduled_page_fails _ _ _ _ _ _ _ _ _ Hopen Hzoom Hgood Hbad).
  rewrite (run_convert_page_fails _ _ _ _ _ _ _ _ _ Hopen Hzoom Hgood Hbad).
  cbn [w_cells w_fs].
  set (cells := cells_of (self s) out (length (good ++ bad :: rest))).
  assert (Ht : v_total cells = Some (length (good ++ bad :: rest))) by reflexivity.
  cbn [app mainloop eval_closure]. rewrite Ht.
  cbn [read_cell v_dpi v_ext cells cells_of].
  rewrite mainloop_app. cbn [fst snd].
  rewrite (mainloop_updates _ _ _ _ Ht).
  match goal with
  | |- context [mainloop cells (update_closures ?f 1 ?n) ?s0] =>
      pose proof (mainloop_updates_frame cells f _ n Ht 1%nat s0) as Hfr;
      destruct (mainloop cells (update_closures f 1 n) s0) as [evs s1]
  end.
  cbn in Hfr. destruct Hfr as (Hrun & _ & _ & _ & Hfs & Hrep).
  cbn. rewrite app_nil_r, Hrun, Hfs, Hrep. auto.
Qed.

(** Had the main loop run that lambda while [e] was still bound, the
    observer would have received [Failed e]. *)
Lemma error_lambda_while_bound cells e s :
  v_e cells = Some e ->
  fst (mainloop cells [lam_conversion_error] s) = [Failed e].
Proof. intros He. cbn. rewrite He. reflexivity. Qed.

Lemma error_lambda_once_unbound cells s :
  v_e cells = None ->
  mainloop cells [lam_conversion_error] s = ([], report name_error_e s).
Proof. intros He. cbn. rewrite He. reflexivity. Qed.

(** [_convert] always returns with [e] unbound. *)
Lemma run_convert_unbinds_e self d pdf out :
  v_e (w_cells (run_convert self d pdf out)) = None.
Proof.
  destruct (Fitz.open d pdf) as [doc|e] eqn:Hopen.
  2: { rewrite (run_convert_open_fails _ _ _ _ _ Hopen). reflexivity. }
  destruct (truediv (dpi self) 72) as [zoom|e] eqn:Hzoom.
  2: { rewrite (run_convert_scale_fails _ _ _ _ _ _ Hopen Hzoom). reflexivity. }
  destruct (doc_cases doc) as [Hok | (good & bad & rest & e & -> & Hgood & Hbad)].
  - rewrite (run_convert_ok _ _ _ _ _ _ Hopen Hzoom Hok). reflexivity.
  - rewrite (run_convert_page_fails _ _ _ _ _ _ _ _ _ Hopen Hzoom Hgood Hbad).
    reflexivity.
Qed.

(** When the document does not open, the observer receives nothing: the
    only callback is the lambda of line 164. *)
Lemma task_open_failure (s : Sys) (pdf out : string) e :
  Fitz.open (fs s) pdf = Err e ->
  scheduled (run_convert (self s) (fs s) pdf out) = [lam_conversion_error]
  /\ task s pdf out = ([], report name_error_e s).
Proof.
  intros Hopen. unfold task, scheduled.
  rewrite (run_convert_open_fails _ _ _ _ _ Hopen). cbn.
  destruct s; auto.
Qed.

(** C2, on the three-page document [torn.pdf] whose second page does not
    render. The worker queues the two opening callbacks, the callback of
    page 1 and the lambda of line 164; page 1 stays on the disk. When the
    main loop runs the lambda, [e] is unbound: the observer receives
    [Started 3] and [PageDone 1 1 _] and no [Failed], Tk reports a
    [NameError], and [is_running] is still set. *)
Theorem torn_document_delivers_no_failed :
  let s := Sample.started "docs/torn.pdf" "out" 200 "PNG" in
  let w := run_convert (self s) (fs s) "docs/torn.pdf" "out" in
  let r := task s "docs/torn.pdf" "out" in
  scheduled w =
    [lam_progress_init; lam_log_start;
     lam_update_progress 1 "out/torn_page0001.png"; lam_conversion_error]
  /\ fst r = [Started 3; PageDone 1 1 "out/torn_page0001.png"]
  /\ reported (snd r) = [name_error_e]
  /\ is_running (self (snd r)) = true
  /\ text_log (self (snd r)) =
       [log_start 3 200 "PNG"; log_page 1 3 "torn_page0001.png"]
  /\ Os.isfile (fs (snd r)) "out/torn_page0001.png" = true.
Proof. vm_compute. repeat split; reflexivity. Qed.

(** C7, on [junk.pdf], a file that is there and is no document. The checks
    of [_start_conversion] pass and the worker queues the lambda of line 164
    alone; run by the main loop it raises, so the observer receives no
    event at all, and [is_running] is still set. *)
Theorem junk_document_delivers_no_failed :
  let s0 := Sample.idle "docs/junk.pdf" "out" 200 "PNG" in
  let s := Sample.started "docs/junk.pdf" "out" 200 "PNG" in
  let w := run_convert (self s) (fs s) "docs/junk.pdf" "out" in
  let r := task s "docs/junk.pdf" "out" in
  inputs_pass s0
  /\ threads s = [("docs/junk.pdf", "out")]
  /\ scheduled w = [lam_conversion_error]
  /\ fst r = []
  /\ reported (snd r) = [name_error_e]
  /\ is_running (self (snd r)) = true.
Proof. vm_compute. repeat split; reflexivity. Qed.

(** ** The document handle *)

(** On success [doc.close()] is the last effect before the final callback
    is queued. *)
Lemma success_closes_before_done self d pdf out doc zoom :
  Fitz.open d pdf = OK doc ->
  truediv (dpi self) 72 = OK zoom ->
  Forall page_ok doc ->
  let w := run_convert self d pdf out in
  w_doc w = doc_closed
  /\ exists t, w_trace w = t ++ [close_call; after_call lam_conversion_done].
Proof.
  intros Hopen Hzoom Hdoc. cbn zeta.
  rewrite (run_convert_ok _ _ _ _ _ _ Hopen Hzoom Hdoc). cbn [w_doc w_trace].
  split; [reflexivity|]. eexists. rewrite app_assoc. reflexivity.
Qed.

(** When a page fails the handle is still open as the worker ends, and
    [doc.close()] was never called. *)
Lemma page_failure_never_closes self d pdf out good bad rest e zoom :
  Fitz.open d pdf = OK (good ++ bad :: rest) ->
  truediv (dpi self) 72 = OK zoom ->
  Forall page_ok good ->
  page_fails bad e ->
  let w := run_convert self d pdf out in
  w_doc w = doc_open /\ closes (w_trace w) = false.
Proof.
  intros Hopen Hzoom Hgood Hbad. cbn zeta.
  rewrite (run_convert_page_fails _ _ _ _ _ _ _ _ _ Hopen Hzoom Hgood Hbad).
  cbn [w_doc w_trace]. split; [reflexivity|].
  unfold closes. cbn. rewrite !existsb_app.
  assert (Hp : forall i, existsb
            (fun e0 => match e0 with close_call => true | _ => false end)
            (page_effects (task_file self pdf out) (fitz_Matrix zoom zoom) i good)
            = false).
  { clear. induction good as [|page g IH]; intros i; [reflexivity|]. cbn. apply IH. }
  rewrite Hp. unfold failing_effects. destruct (render_error bad); reflexivity.
Qed.

(** C4, on [torn.pdf] (page 2 does not render) and on [full.pdf] (page 2
    does not save): the worker queues its final callback and ends with the
    document open; [doc.close()] is not in its trace. *)
Theorem failing_page_leaves_document_open :
  let s := Sample.started "docs/torn.pdf" "out" 200 "PNG" in
  let w1 := run_convert (self s) (fs s) "docs/torn.pdf" "out" in
  let w2 := run_convert (self s) (fs s) "docs/full.pdf" "out" in
  (w_doc w1 = doc_open /\ closes (w_trace w1) = false
   /\ List.last (w_trace w1) close_call = after_call lam_conversion_error)
  /\ (w_doc w2 = doc_open /\ closes (w_trace w2) = false
      /\ List.last (w_trace w2) close_call = after_call lam_conversion_error).
Proof. vm_compute. repeat split; reflexivity. Qed.

(** ** The scale *)

Lemma render_calls_app t1 t2 :
  render_calls (t1 ++ t2) = render_calls t1 ++ render_calls t2.
Proof. apply omap_app. Qed.


Lemma render_calls_page_effects f mat doc :
  forall i,
    render_calls (page_effects f mat i doc) =
      map (fun j => (j, mat)) (seq i (length doc)).
Proof.
  induction doc as [|page rest IH]; intros i; [reflexivity|].
  cbn. f_equal. apply IH.
Qed.

Lemma render_calls_failing_effects f mat i page :
  render_calls (failing_effects f mat i page) = [(i, mat)].
Proof. unfold failing_effects. destruct (render_error page); reflexivity. Qed.



(** Examples of the scale: [144 / 72.0], [72 / 72.0], [200 / 72.0]. *)
Example truediv_144 : truediv 144 72 = OK 2%float.
Proof. reflexivity. Qed.

Example truediv_72 : truediv 72 72 = OK 1%float.
Proof. reflexivity. Qed.

Example truediv_200 : truediv 200 72 = OK 0x1.638e38e38e38ep+1%float.
Proof. reflexivity. Qed.


(** ** Strings and paths *)

Lemma length_append (a b : string) :
  String.length (a +:+ b) = (String.length a + String.length b)%nat.
Proof. induction a as [|c a IH]; simpl; [reflexivity | f_equal; exact IH]. Qed.

Lemma has_sep_append (a b : string) :
  OsPath.has_sep (a +:+ b) = OsPath.has_sep a || OsPath.has_sep b.
Proof.
  induction a as [|c a IH]; simpl; [reflexivity|].
  rewrite IH, orb_assoc. reflexivity.
Qed.

Lemma length_zeros n : String.length (PyStr.zeros n) = n.
Proof. induction n as [|n IH]; simpl; [reflexivity | f_equal; exact IH]. Qed.

Lemma has_sep_zeros n : OsPath.has_sep (PyStr.zeros n) = false.
Proof. induction n as [|n IH]; [reflexivity | exact IH]. Qed.

Lemma has_sep_digits d : OsPath.has_sep (NilEmpty.string_of_uint d) = false.
Proof. induction d; simpl; auto. Qed.

Lemma to_uint_not_nil n : Nat.to_uint n <> Decimal.Nil.
Proof.
  intros H. pose proof (DecimalNat.Unsigned.of_to n) as Hn. rewrite H in Hn.
  simpl in Hn. subst n. discriminate H.
Qed.

Lemma decimal_digits n : PyStr.decimal n = NilEmpty.string_of_uint (Nat.to_uint n).
Proof.
  unfold PyStr.decimal, NilZero.string_of_uint.
  pose proof (to_uint_not_nil n). destruct (Nat.to_uint n); congruence.
Qed.

Lemma has_sep_decimal n : OsPath.has_sep (PyStr.decimal n) = false.
Proof. rewrite decimal_digits. apply has_sep_digits. Qed.

Lemma read_decimal_decimal n : read_decimal (PyStr.decimal n) = Some n.
Proof.
  unfold read_decimal. rewrite decimal_digits, NilEmpty.usu. simpl.
  rewrite DecimalNat.Unsigned.of_to. reflexivity.
Qed.

Lemma read_decimal_zeros k s n :
  read_decimal s = Some n -> read_decimal (PyStr.zeros k +:+ s) = Some n.
Proof.
  intros H. induction k as [|k IH]; [exact H|].
  unfold read_decimal in *. simpl.
  destruct (NilEmpty.uint_of_string (PyStr.zeros k +:+ s)) as [d|]; [|discriminate].
  simpl in *. exact IH.
Qed.

(** [f"{n:04d}"] is made of digits only, reads back as [n], has at least
    four characters, and exactly four up to 9999. *)
Lemma format_04d_reads_back n : read_decimal (PyStr.format_04d n) = Some n.
Proof. apply read_decimal_zeros, read_decimal_decimal. Qed.

Lemma format_04d_length n :
  String.length (PyStr.format_04d n) = Nat.max 4 (String.length (PyStr.decimal n)).
Proof. unfold PyStr.format_04d. rewrite length_append, length_zeros. lia. Qed.

Lemma format_04d_four_digits n :
  (Z.of_nat n <= 9999)%Z -> String.length (PyStr.format_04d n) = 4%nat.
Proof.
  intros Hn.
  assert (H : forallb (fun i => (String.length (PyStr.format_04d i) =? 4)%nat)
                (seq 0 (100 * 100)) = true) by (vm_compute; reflexivity).
  rewrite forallb_forall in H. apply Nat.eqb_eq, H, in_seq. lia.
Qed.

Lemma has_sep_format_04d n : OsPath.has_sep (PyStr.format_04d n) = false.
Proof.
  unfold PyStr.format_04d. rewrite has_sep_append, has_sep_zeros, has_sep_decimal.
  reflexivity.
Qed.

Lemma has_sep_basename p : OsPath.has_sep (OsPath.basename p) = false.
Proof.
  induction p as [|c r IH]; [reflexivity|]. cbn [OsPath.basename].
  destruct (OsPath.is_sep c || OsPath.has_sep r) eqn:E; [exact IH | exact E].
Qed.

Lemma has_sep_cut_last_dot s :
  forall r, OsPath.cut_last_dot s = Some r ->
            OsPath.has_sep s = false -> OsPath.has_sep r = false.
Proof.
  induction s as [|c s IH]; intros r; simpl; [discriminate|].
  destruct (OsPath.cut_last_dot s) as [r'|].
  - intros [= <-] H. apply orb_false_iff in H as [Hc Hs]. simpl.
    rewrite Hc, (IH r' eq_refl Hs). reflexivity.
  - destruct (OsPath.is_dot c); [|discriminate]. intros [= <-] _. reflexivity.
Qed.

Lemma has_sep_splitext_root p :
  OsPath.has_sep p = false -> OsPath.has_sep (OsPath.splitext_root p) = false.
Proof.
  induction p as [|c r IH]; [reflexivity|]. intros H. cbn [OsPath.splitext_root].
  destruct (OsPath.is_dot c).
  - simpl in H |- *. apply orb_false_iff in H as [Hc Hr].
    rewrite Hc, (IH Hr). reflexivity.
  - destruct (OsPath.cut_last_dot (String c r)) as [root|] eqn:E; [|exact H].
    exact (has_sep_cut_last_dot _ _ E H).
Qed.

Lemma has_sep_file_ext_of ext : OsPath.has_sep (file_ext_of ext) = false.
Proof. unfold file_ext_of. destruct (String.eqb ext "jpeg"); reflexivity. Qed.

(** The file name of a page has no separator when the base name has none. *)
Lemma has_sep_page_file_name base i ext :
  OsPath.has_sep base = false ->
  OsPath.has_sep (page_file_name base i (file_ext_of ext)) = false.
Proof.
  intros Hb. unfold page_file_name.
  rewrite !has_sep_append, Hb, has_sep_format_04d, has_sep_file_ext_of.
  reflexivity.
Qed.

Lemma real_of_length (s : string) :
  (2 <= String.length s)%nat -> OsPath.real_component s = true.
Proof.
  destruct s as [|a [|b s]]; simpl; try lia. intros _.
  unfold OsPath.real_component. simpl. destruct (Ascii.eqb a "."); reflexivity.
Qed.

Lemma real_page_file_name base i x :
  OsPath.real_component (page_file_name base i x) = true.
Proof.
  apply real_of_length. unfold page_file_name. rewrite !length_append.
  simpl. lia.
Qed.

Lemma split_sep_not_nil s : OsPath.split_sep s <> [].
Proof.
  induction s as [|c s IH]; simpl; [discriminate|].
  destruct (OsPath.is_sep c); [discriminate|].
  destruct (OsPath.split_sep s); discriminate.
Qed.

Lemma split_sep_at_sep (a b : string) :
  OsPath.split_sep (a +:+ String "/" b) = OsPath.split_sep a ++ OsPath.split_sep b.
Proof.
  induction a as [|c a IH]; simpl; [reflexivity|].
  rewrite IH. destruct (OsPath.is_sep c); [reflexivity|].
  pose proof (split_sep_not_nil a). destruct (OsPath.split_sep a); [congruence|].
  reflexivity.
Qed.

Lemma split_sep_no_sep (n : string) :
  OsPath.has_sep n = false -> OsPath.split_sep n = [n].
Proof.
  induction n as [|c n IH]; simpl; [reflexivity|]. intros H.
  apply orb_false_iff in H as [Hc Hn]. rewrite Hc, (IH Hn). reflexivity.
Qed.

Lemma components_at_sep (a b : string) :
  OsPath.components (a +:+ String "/" b) = OsPath.components a ++ OsPath.components b.
Proof. unfold OsPath.components. rewrite split_sep_at_sep. apply filter_app. Qed.

Lemma components_name (n : string) :
  OsPath.has_sep n = false ->
  OsPath.real_component n = true ->
  OsPath.components n = [n].
Proof.
  intros Hs Hr. unfold OsPath.components. rewrite (split_sep_no_sep _ Hs).
  rewrite filter_cons_True by (rewrite Hr; exact I). reflexivity.
Qed.

Lemma ends_with_sep_split (a : string) :
  OsPath.ends_with_sep a = true -> exists a', a = a' +:+ "/".
Proof.
  induction a as [|c a IH]; simpl; [discriminate|].
  destruct a as [|c' a].
  - intros H. apply Ascii.eqb_eq in H. subst c. exists EmptyString. reflexivity.
  - intros H. destruct (IH H) as [a' Ha']. exists (String c a').
    rewrite Ha'. reflexivity.
Qed.

Lemma append_cons c (a b : string) : String c a +:+ b = String c (a +:+ b).
Proof. reflexivity. Qed.

Lemma append_assoc (a b c : string) : (a +:+ b) +:+ c = a +:+ b +:+ c.
Proof.
  induction a as [|x a IH]; [reflexivity|].
  rewrite !append_cons, IH. reflexivity.
Qed.

(** [os.path.join(a, n)] names the entry [n] of the directory [a], when [n]
    is a plain name. *)
Lemma components_join (a n : string) :
  OsPath.has_sep n = false ->
  OsPath.real_component n = true ->
  OsPath.components (OsPath.join a n) = OsPath.components a ++ [n].
Proof.
  intros Hs Hr. unfold OsPath.join.
  assert (Hstart : OsPath.starts_with_sep n = false).
  { destruct n as [|c n]; [reflexivity|]. simpl in Hs |- *.
    apply orb_false_iff in Hs as [Hc _]. exact Hc. }
  rewrite Hstart.
  destruct a as [|c a]; simpl PyStr.falsy; cbn [orb].
  { apply components_name; assumption. }
  destruct (OsPath.ends_with_sep (String c a)) eqn:E.
  - destruct (ends_with_sep_split _ E) as [a' Ha']. rewrite Ha'.
    rewrite append_assoc. change ("/" +:+ n) with (String "/" n).
    rewrite components_at_sep, (components_name _ Hs Hr), components_at_sep.
    change (OsPath.components EmptyString) with (@nil string).
    rewrite app_nil_r. reflexivity.
  - change ("/" +:+ n) with (String "/" n).
    rewrite components_at_sep, (components_name _ Hs Hr).
    reflexivity.
Qed.

(** ** The names of the output files *)

Lemma save_calls_app t1 t2 : save_calls (t1 ++ t2) = save_calls t1 ++ save_calls t2.
Proof. apply omap_app. Qed.

Lemma save_calls_page_effects f mat doc :
  forall i,
    save_calls (page_effects f mat i doc) = map (fun j => (j, f j)) (seq i (length doc)).
Proof.
  induction doc as [|page rest IH]; intros i; [reflexivity|].
  cbn. f_equal. apply IH.
Qed.

(** The save calls of a run are those of the pages 1, ..., [n], each to the
    path [task_file] gives. *)
Lemma save_calls_run self d pdf out :
  exists n,
    save_calls (w_trace (run_convert self d pdf out)) =
      map (fun j => (j, task_file self pdf out j)) (seq 1 n).
Proof.
  destruct (Fitz.open d pdf) as [doc|e] eqn:Hopen.
  2: { rewrite (run_convert_open_fails _ _ _ _ _ Hopen). exists 0%nat. reflexivity. }
  destruct (truediv (dpi self) 72) as [zoom|e] eqn:Hzoom.
  2: { rewrite (run_convert_scale_fails _ _ _ _ _ _ Hopen Hzoom).
       exists 0%nat. reflexivity. }
  destruct (doc_cases doc) as [Hok | (good & bad & rest & e & -> & Hgood & Hbad)].
  - rewrite (run_convert_ok _ _ _ _ _ _ Hopen Hzoom Hok). cbn [w_trace].
    exists (length doc). rewrite !save_calls_app, save_calls_page_effects.
    cbn. rewrite app_nil_r. reflexivity.
  - rewrite (run_convert_page_fails _ _ _ _ _ _ _ _ _ Hopen Hzoom Hgood Hbad).
    cbn [w_trace]. rewrite !save_calls_app, save_calls_page_effects.
    unfold failing_effects. destruct (render_error bad).
    + exists (length good). cbn. rewrite app_nil_r. reflexivity.
    + exists (S (length good)). cbn [save_calls omap app].
      rewrite seq_S, map_app. cbn. reflexivity.
Qed.

(** C5. Every file a run saves, say for page [i], has the path
    [os.path.join(output_dir, name)] with [name] the base name of the source,
    [_page], the digits [f"{i:04d}"], a dot and the extension. The digits
    are those of [i] filled with zeros on the left up to four characters:
    they read back as [i] and are exactly four up to page 9999. The
    extension is [png] for the format [PNG] and [jpg] for [JPEG]. The file
    is an entry of the output directory itself, and [i] is at least 1. *)
Theorem output_file_name (self : App) (d : gmap (list string) Node)
    (pdf out : string) (i : nat) (f : string) :
  In (i, f) (save_calls (w_trace (run_convert self d pdf out))) ->
  let base := OsPath.splitext_root (OsPath.basename pdf) in
  let ext := file_ext_of (PyStr.lower (fmt self)) in
  let name := base +:+ "_page" +:+ PyStr.format_04d i +:+ "." +:+ ext in
  (1 <= i)%nat
  /\ f = OsPath.join out name
  /\ OsPath.components f = OsPath.components out ++ [name]
  /\ PyStr.format_04d i =
       PyStr.zeros (4 - String.length (PyStr.decimal i)) +:+ PyStr.decimal i
  /\ read_decimal (PyStr.format_04d i) = Some i
  /\ ((Z.of_nat i <= 9999)%Z -> String.length (PyStr.format_04d i) = 4%nat)
  /\ (fmt self = "PNG" -> ext = "png")
  /\ (fmt self = "JPEG" -> ext = "jpg").
Proof.
  intros Hin. cbn zeta.
  destruct (save_calls_run self d pdf out) as [n Hn]. rewrite Hn in Hin.
  apply in_map_iff in Hin as (j & [= -> <-] & Hj). apply in_seq in Hj.
  split; [lia|]. split; [reflexivity|]. split.
  { unfold task_file, out_file_of. apply components_join.
    - apply has_sep_page_file_name, has_sep_splitext_root, has_sep_basename.
    - apply real_page_file_name. }
  split; [reflexivity|]. split; [apply format_04d_reads_back|].
  split; [apply format_04d_four_digits|].
  split; intros ->; reflexivity.
Qed.

(** The scenarios of the specification. *)
Example deck_page_1 :
  page_file_name (OsPath.splitext_root (OsPath.basename "deck.pdf")) 1
    (file_ext_of (PyStr.lower "PNG")) = "deck_page0001.png".
Proof. reflexivity. Qed.

Example name_page_1_jpeg :
  out_file_of "out" (OsPath.splitext_root (OsPath.basename "/home/u/name.pdf"))
    (PyStr.lower "JPEG") 1 = "out/name_page0001.jpg".
Proof. reflexivity. Qed.

Example page_12345 : PyStr.format_04d (Z.to_nat 12345) = "12345".
Proof. reflexivity. Qed.

(** ** Making the output directory *)

Lemma prefixes_from_longer rest :
  forall above q, In q (prefixes_from above rest) -> (length above < length q)%nat.
Proof.
  induction rest as [|c rest IH]; intros above q; simpl; [tauto|].
  intros [<- | Hq].
  - rewrite length_app. simpl. lia.
  - apply IH in Hq. rewrite length_app in Hq. simpl in Hq. lia.
Qed.

Lemma mkdirs_from_ok rest :
  forall above (d : gmap (list string) Node),
    Forall (fun q => forall c, d !! q <> Some (File c)) (prefixes_from above rest) ->
    exists d',
      Os.mkdirs_from d above rest = OK d'
      /\ Forall (fun q => d' !! q = Some Dir) (prefixes_from above rest)
      /\ (forall q v, d !! q = Some v -> d' !! q = Some v)
      /\ (forall q, ~ In q (prefixes_from above rest) -> d' !! q = d !! q).
Proof.
  induction rest as [|c rest IH]; intros above d Hfree.
  { exists d. simpl. auto. }
  simpl in Hfree |- *. inversion Hfree as [|q0 l Hq Hrest]; subst.
  destruct (d !! (above ++ [c])) as [[|content]|] eqn:E.
  - destruct (IH (above ++ [c]) d Hrest) as (d' & Hrun & Hdirs & Hkeep & Hframe).
    exists d'. split; [exact Hrun|]. split; [|split].
    + constructor; [apply Hkeep, E | exact Hdirs].
    + exact Hkeep.
    + intros q Hq'. apply Hframe. tauto.
  - exfalso. exact (Hq content eq_refl).
  - assert (Hfree' : Forall (fun q => forall c0, <[above ++ [c] := Dir]> d !! q <> Some (File c0))
                       (prefixes_from (above ++ [c]) rest)).
    { rewrite List.Forall_forall in Hrest |- *. intros q Hin c0.
      rewrite lookup_insert_ne; [apply Hrest, Hin|].
      intros Heq. subst q. apply prefixes_from_longer in Hin. lia. }
    destruct (IH (above ++ [c]) _ Hfree') as (d' & Hrun & Hdirs & Hkeep & Hframe).
    exists d'. split; [exact Hrun|]. split; [|split].
    + constructor; [apply Hkeep, lookup_insert_eq | exact Hdirs].
    + intros q v Hv. apply Hkeep. rewrite lookup_insert_ne; [exact Hv|].
      intros Heq. subst q. congruence.
    + intros q Hq'. rewrite Hframe by tauto.
      apply lookup_insert_ne. intros Heq. subst q. tauto.
Qed.

(** [os.makedirs(p, exist_ok=True)] on a creatable path: afterwards the
    directory and all its parents are directories, what was on the disk is
    still there, and nothing else was made. *)
Lemma makedirs_ok (d : gmap (list string) Node) (p : string) :
  creatable d p = true ->
  exists d',
    Os.makedirs d p = OK d'
    /\ Forall (fun q => d' !! q = Some Dir) (dir_and_parents p)
    /\ (forall q v, d !! q = Some v -> d' !! q = Some v)
    /\ (forall q, ~ In q (dir_and_parents p) -> d' !! q = d !! q).
Proof.
  intros H. apply mkdirs_from_ok. apply List.Forall_forall. intros q Hq c Hc.
  unfold creatable in H. rewrite forallb_forall in H. specialize (H q Hq).
  unfold is_file_at in H. rewrite Hc in H. discriminate H.
Qed.

(** ** Starting *)

Lemma start_unfold (s : Sys) :
  inputs_pass s ->
  _start_conversion s =
    if is_running (self s) then (OK tt, s)
    else match Os.makedirs (fs s) (PyStr.strip (output_dir (self s))) with
         | OK d =>
             (OK tt,
              add_thread (PyStr.strip (pdf_path (self s)))
                (PyStr.strip (output_dir (self s)))
                (on_app (set_btn_run disabled)
                   (on_app (set_is_running true) (set_fs d s))))
         | Err e => (Err e, s)
         end.
Proof.
  intros (Hpdf & Hfile & Hout).
  unfold _start_conversion, bind, gets.
  rewrite Hpdf, Hfile, Hout. cbn [orb negb].
  destruct (is_running (self s)); [reflexivity|].
  destruct (Os.makedirs (fs s) _); reflexivity.
Qed.

Lemma start_rejects_source (s : Sys) :
  PyStr.falsy (PyStr.strip (pdf_path (self s))) = true
  \/ Os.isfile (fs s) (PyStr.strip (pdf_path (self s))) = false ->
  _start_conversion s = (OK tt, add_dialog (showerror msg_select_valid_pdf) s).
Proof.
  intros H. unfold _start_conversion, bind, gets.
  destruct H as [-> | ->]; [reflexivity|].
  rewrite orb_true_r. reflexivity.
Qed.

Lemma start_rejects_output (s : Sys) :
  PyStr.falsy (PyStr.strip (pdf_path (self s))) = false ->
  Os.isfile (fs s) (PyStr.strip (pdf_path (self s))) = true ->
  PyStr.falsy (PyStr.strip (output_dir (self s))) = true ->
  _start_conversion s = (OK tt, add_dialog (showerror msg_give_output_dir) s).
Proof.
  intros Hpdf Hfile Hout. unfold _start_conversion, bind, gets.
  rewrite Hpdf, Hfile, Hout. reflexivity.
Qed.

(** An empty path, and a path of spaces alone, is falsy once stripped. *)
Example strip_spaces : PyStr.falsy (PyStr.strip "   ") = true.
Proof. reflexivity. Qed.

Lemma start_while_running_changes_nothing_aux (s : Sys) :
  is_running (self s) = true ->
  inputs_pass s ->
  _start_conversion s = (OK tt, s).
Proof.
  intros Hrun Hin. rewrite (start_unfold s Hin), Hrun. reflexivity.
Qed.

(** C10. With the flag set and inputs that pass the two checks,
    [_start_conversion] returns normally and leaves everything as it was:
    no exception, no message box, no directory made, no thread started, no
    field of [self] changed. *)
Theorem start_while_running_changes_nothing (s : Sys) :
  is_running (self s) = true ->
  inputs_pass s ->
  _start_conversion s = (OK tt, s).
Proof. apply start_while_running_changes_nothing_aux. Qed.

Lemma start_while_running_changes_nothing_witness :
  let s := Sample.busy "docs/deck.pdf" "out" in
  is_running (self s) = true /\ inputs_pass s
  /\ Os.isdir (fs s) ["out"] = false
  /\ _start_conversion s = (OK tt, s).
Proof.
  cbn zeta.
  assert (Hrun : is_running (self (Sample.busy "docs/deck.pdf" "out")) = true)
    by reflexivity.
  assert (Hin : inputs_pass (Sample.busy "docs/deck.pdf" "out"))
    by (vm_compute; repeat split; reflexivity).
  split; [exact Hrun|]. split; [exact Hin|]. split; [vm_compute; reflexivity|].
  exact (start_while_running_changes_nothing _ Hrun Hin).
Defined.

(** C6, as the code has it. An empty source path and a source path that
    names no file are both refused with the message that asks for a valid
    PDF; with a valid source, an empty output path is refused with the
    message that asks for an output folder; the two messages differ. With a
    valid source, an output path that is not empty and can be made, and no
    task running, the output directory and all its missing parents are made,
    nothing that was on the disk is lost, nothing else is made, and the
    worker is started. *)
Theorem validation_outcomes (s : Sys) :
  let pdf := PyStr.strip (pdf_path (self s)) in
  let out := PyStr.strip (output_dir (self s)) in
  (PyStr.falsy pdf = true \/ Os.isfile (fs s) pdf = false ->
   _start_conversion s = (OK tt, add_dialog (showerror msg_select_valid_pdf) s))
  /\ (PyStr.falsy pdf = false -> Os.isfile (fs s) pdf = true ->
      PyStr.falsy out = true ->
      _start_conversion s = (OK tt, add_dialog (showerror msg_give_output_dir) s))
  /\ showerror msg_select_valid_pdf <> showerror msg_give_output_dir
  /\ (inputs_pass s -> is_running (self s) = false -> creatable (fs s) out = true ->
      exists d',
        _start_conversion s =
          (OK tt,
           add_thread pdf out
             (on_app (set_btn_run disabled)
                (on_app (set_is_running true) (set_fs d' s))))
        /\ Forall (fun q => d' !! q = Some Dir) (dir_and_parents out)
        /\ (forall q v, fs s !! q = Some v -> d' !! q = Some v)
        /\ (forall q, ~ In q (dir_and_parents out) -> d' !! q = fs s !! q)).
Proof.
  cbn zeta. split; [apply start_rejects_source|].
  split; [apply start_rejects_output|]. split; [discriminate|].
  intros Hin Hrun Hfree.
  destruct (makedirs_ok _ _ Hfree) as (d' & Hmk & Hdirs & Hkeep & Hframe).
  exists d'. rewrite (start_unfold s Hin), Hrun, Hmk. auto.
Qed.

Lemma validation_outcomes_witness :
  let s1 := Sample.idle "  " "out" 200 "PNG" in
  let s2 := Sample.idle "docs/none.pdf" "out" 200 "PNG" in
  let s3 := Sample.idle "docs/deck.pdf" " " 200 "PNG" in
  let s4 := Sample.idle " docs/deck.pdf" "out/img " 200 "PNG" in
  _start_conversion s1 = (OK tt, add_dialog (showerror msg_select_valid_pdf) s1)
  /\ _start_conversion s2 = (OK tt, add_dialog (showerror msg_select_valid_pdf) s2)
  /\ _start_conversion s3 = (OK tt, add_dialog (showerror msg_give_output_dir) s3)
  /\ (Os.isdir (fs s4) ["out"] = false
      /\ exists d',
           _start_conversion s4 =
             (OK tt,
              add_thread "docs/deck.pdf" "out/img"
                (on_app (set_btn_run disabled)
                   (on_app (set_is_running true) (set_fs d' s4))))
           /\ Forall (fun q => d' !! q = Some Dir) [["out"]; ["out"; "img"]]).
Proof.
  cbn zeta. split; [|split; [|split]].
  - apply (proj1 (validation_outcomes (Sample.idle "  " "out" 200 "PNG"))).
    left. vm_compute. reflexivity.
  - apply (proj1 (validation_outcomes (Sample.idle "docs/none.pdf" "out" 200 "PNG"))).
    right. vm_compute. reflexivity.
  - apply (proj1 (proj2 (validation_outcomes (Sample.idle "docs/deck.pdf" " " 200 "PNG"))));
      vm_compute; reflexivity.
  - split; [vm_compute; reflexivity|].
    destruct (proj2 (proj2 (proj2
                (validation_outcomes (Sample.idle " docs/deck.pdf" "out/img " 200 "PNG")))))
      as (d' & Hrun & Hdirs & _).
    + vm_compute. repeat split; reflexivity.
    + vm_compute. reflexivity.
    + vm_compute. reflexivity.
    + exists d'. split; [exact Hrun | exact Hdirs].
Defined.

(** C6 as stated fails while a task runs: the source is a file,
    the output path is not empty, its directory is not there and could be
    made, and [_start_conversion] returns without making it. *)
Lemma running_start_makes_no_directory :
  let s := Sample.busy "docs/deck.pdf" "out" in
  inputs_pass s
  /\ creatable (fs s) "out" = true
  /\ Os.isdir (fs s) ["out"] = false
  /\ Os.isdir (fs (snd (_start_conversion s))) ["out"] = false.
Proof. vm_compute. repeat split; reflexivity. Qed.

(** ** Starting while a task runs *)







(** ** The scenarios of the specification *)

Lemma task_events_success_witness :
  let s := Sample.started "docs/deck.pdf" "out" 200 "PNG" in
  fst (task s "docs/deck.pdf" "out") =
    [Started 3;
     PageDone 1 1 "out/deck_page0001.png";
     PageDone 2 2 "out/deck_page0002.png";
     PageDone 3 3 "out/deck_page0003.png";
     Finished 3 "out"].
Proof.
  cbn zeta.
  refine (eq_trans
            (task_events_success
               (Sample.started "docs/deck.pdf" "out" 200 "PNG")
               "docs/deck.pdf" "out"
               [Sample.good; Sample.good; Sample.good] _ _ _) _).
  - vm_compute. reflexivity.
  - repeat constructor.
  - vm_compute. reflexivity.
  - vm_compute. reflexivity.
Defined.

Lemma output_file_name_witness :
  let s := Sample.started "docs/deck.pdf" "out/" 400 "JPEG" in
  OsPath.components "out/deck_page0002.jpg" = ["out"; "deck_page0002.jpg"]
  /\ read_decimal (PyStr.format_04d 2) = Some 2%nat
  /\ String.length (PyStr.format_04d 2) = 4%nat.
Proof.
  cbn zeta.
  destruct (output_file_name
              (self (Sample.started "docs/deck.pdf" "out/" 400 "JPEG"))
              (fs (Sample.started "docs/deck.pdf" "out/" 400 "JPEG"))
              "docs/deck.pdf" "out/" 2 "out/deck_page0002.jpg")
    as (_ & _ & Hc & _ & Hr & Hl & _).
  - vm_compute. right. left. reflexivity.
  - split; [exact Hc|]. split; [exact Hr|]. apply Hl. vm_compute. discriminate.
Defined.

(** ** One task at a time on the main thread *)

Lemma isfile_kept (d d' : gmap (list string) Node) (p : string) :
  (forall q v, d !! q = Some v -> d' !! q = Some v) ->
  Os.isfile d p = true -> Os.isfile d' p = true.
Proof.
  intros Hkeep. unfold Os.isfile. intros H.
  apply andb_true_iff in H as [Hn Hf]. rewrite Hn. cbn [andb].
  destruct (d !! OsPath.components p) as [[|c]|] eqn:E; try discriminate.
  rewrite (Hkeep _ _ E). reflexivity.
Qed.

(** A start that goes through sets the flag before it starts the thread's
    work, and a second start right after it starts nothing. *)
Lemma second_start_changes_nothing (s : Sys) :
  inputs_pass s ->
  is_running (self s) = false ->
  creatable (fs s) (PyStr.strip (output_dir (self s))) = true ->
  exists s1,
    _start_conversion s = (OK tt, s1)
    /\ is_running (self s1) = true
    /\ threads s1 =
         threads s ++ [(PyStr.strip (pdf_path (self s)),
                        PyStr.strip (output_dir (self s)))]
    /\ _start_conversion s1 = (OK tt, s1).
Proof.
  intros Hin Hidle Hfree.
  destruct (makedirs_ok _ _ Hfree) as (d' & Hmk & _ & Hkeep & _).
  eexists. split; [rewrite (start_unfold s Hin), Hidle, Hmk; reflexivity|].
  split; [reflexivity|]. split; [reflexivity|].
  apply start_while_running_changes_nothing_aux; [reflexivity|].
  destruct Hin as (Hpdf & Hfile & Hout). repeat split; cbn; try assumption.
  exact (isfile_kept _ _ _ Hkeep Hfile).
Qed.

(** The flag is cleared by the two final callbacks alone, after their log
    line. *)
Lemma callbacks_and_the_flag (c : UiCall) (s : Sys) :
  is_running (self (snd (perform c s))) =
    match c with
    | call_conversion_done _ _ | call_conversion_error _ => false
    | _ => is_running (self s)
    end.
Proof. destruct c; reflexivity. Qed.

(** * Further properties *)

(** ** The names of the page files are all different *)

Lemma append_inj_l (a b c : string) : a +:+ b = a +:+ c -> b = c.
Proof.
  induction a as [|x a IH]; [exact (fun H => H)|].
  rewrite !append_cons. intros [= H]. exact (IH H).
Qed.

Lemma append_inj_same_length (a b c d : string) :
  String.length a = String.length b -> a +:+ c = b +:+ d -> a = b /\ c = d.
Proof.
  revert b. induction a as [|x a IH]; intros [|y b]; simpl; try discriminate.
  - intros _ H. split; [reflexivity | exact H].
  - intros [= Hl]. rewrite !append_cons. intros [= -> H].
    destruct (IH b Hl H) as [-> ->]. split; reflexivity.
Qed.

Lemma append_inj_r (a b c : string) : a +:+ c = b +:+ c -> a = b.
Proof.
  intros H. apply (append_inj_same_length a b c c); [|exact H].
  apply (f_equal String.length) in H. rewrite !length_append in H. lia.
Qed.

Lemma format_04d_inj i j : PyStr.format_04d i = PyStr.format_04d j -> i = j.
Proof.
  intros H. apply (f_equal read_decimal) in H.
  rewrite !format_04d_reads_back in H. congruence.
Qed.

Lemma page_file_name_inj base x i j :
  page_file_name base i x = page_file_name base j x -> i = j.
Proof.
  unfold page_file_name. intros H.
  apply append_inj_l, append_inj_l in H.
  apply append_inj_r in H. exact (format_04d_inj _ _ H).
Qed.

Lemma task_key_inj self pdf out i j :
  task_key self pdf out i = task_key self pdf out j -> i = j.
Proof.
  unfold task_key. intros H. apply app_inj_tail in H as [_ H].
  exact (page_file_name_inj _ _ _ _ H).
Qed.

Lemma task_file_key self pdf out i :
  OsPath.components (task_file self pdf out i) = task_key self pdf out i.
Proof.
  unfold task_file, out_file_of, task_key, task_name. apply components_join.
  - apply has_sep_page_file_name, has_sep_splitext_root, has_sep_basename.
  - apply real_page_file_name.
Qed.

(** ** What a run leaves on the disk *)

Lemma save_pages_frame f mat doc :
  forall i (d : gmap (list string) Node) q,
    (forall j, (i <= j < i + length doc)%nat -> OsPath.components (f j) <> q) ->
    save_pages f mat i doc d !! q = d !! q.
Proof.
  induction doc as [|page rest IH]; intros i d q Hq; [reflexivity|].
  cbn [save_pages]. rewrite IH.
  - apply lookup_insert_ne. apply Hq. cbn [length]. lia.
  - intros j Hj. apply Hq. cbn [length]. lia.
Qed.

Lemma save_pages_page f mat doc :
  (forall a b, OsPath.components (f a) = OsPath.components (f b) -> a = b) ->
  forall i (d : gmap (list string) Node) k page,
    doc !! k = Some page ->
    save_pages f mat i doc d !! OsPath.components (f (i + k)%nat) =
      Some (File (Image (mkPixmap page mat))).
Proof.
  intros Hinj. induction doc as [|p0 rest IH]; intros i d k page Hk;
    [discriminate|].
  cbn [save_pages]. destruct k as [|k].
  - injection Hk as ->. rewrite Nat.add_0_r, save_pages_frame.
    + apply lookup_insert_eq.
    + intros j Hj Heq. apply Hinj in Heq. lia.
  - replace (i + S k)%nat with (S i + k)%nat by lia. apply IH. exact Hk.
Qed.

Lemma save_pages_keeps f mat doc :
  forall i (d : gmap (list string) Node) q,
    is_Some (d !! q) -> is_Some (save_pages f mat i doc d !! q).
Proof.
  induction doc as [|page rest IH]; intros i d q Hq; [exact Hq|].
  cbn [save_pages]. apply IH.
  destruct (decide (OsPath.components (f i) = q)) as [<-|Hne].
  - rewrite lookup_insert_eq. eauto.
  - rewrite lookup_insert_ne by exact Hne. exact Hq.
Qed.

(** Saving again pages that are on the disk changes nothing. *)
Lemma save_pages_again f mat doc :
  forall i (d : gmap (list string) Node),
    (forall k page, doc !! k = Some page ->
       d !! OsPath.components (f (i + k)%nat) = Some (File (Image (mkPixmap page mat)))) ->
    save_pages f mat i doc d = d.
Proof.
  induction doc as [|p0 rest IH]; intros i d Hd; [reflexivity|].
  cbn [save_pages].
  assert (H0 : <[OsPath.components (f i) := File (Image (mkPixmap p0 mat))]> d = d).
  { apply insert_id. specialize (Hd 0%nat p0 eq_refl).
    rewrite Nat.add_0_r in Hd. exact Hd. }
  rewrite H0. apply IH. intros k page Hk.
  specialize (Hd (S k) page Hk). replace (S i + k)%nat with (i + S k)%nat by lia.
  exact Hd.
Qed.

(** Every run leaves on the disk what [save_pages] gives for the pages it
    went through. *)
Lemma run_convert_disk self d pdf out :
  exists doc zoom,
    w_fs (run_convert self d pdf out) =
      save_pages (task_file self pdf out) (fitz_Matrix zoom zoom) 1 doc d.
Proof.
  destruct (Fitz.open d pdf) as [doc|e] eqn:Hopen.
  2: { rewrite (run_convert_open_fails _ _ _ _ _ Hopen).
       exists [], 0%float. reflexivity. }
  destruct (truediv (dpi self) 72) as [zoom|e] eqn:Hzoom.
  2: { rewrite (run_convert_scale_fails _ _ _ _ _ _ Hopen Hzoom).
       exists [], 0%float. reflexivity. }
  destruct (doc_cases doc) as [Hok | (good & bad & rest & e & -> & Hgood & Hbad)].
  - rewrite (run_convert_ok _ _ _ _ _ _ Hopen Hzoom Hok). eauto.
  - rewrite (run_convert_page_fails _ _ _ _ _ _ _ _ _ Hopen Hzoom Hgood Hbad).
    eauto.
Qed.

(** ** The source is not among the page files *)

Lemma split_sep_two (r : string) :
  OsPath.has_sep r = true -> exists h x t, OsPath.split_sep r = h :: x :: t.
Proof.
  induction r as [|c r IH]; simpl; [discriminate|].
  destruct (OsPath.is_sep c); simpl.
  - intros _. pose proof (split_sep_not_nil r).
    destruct (OsPath.split_sep r) as [|x t]; [congruence|]. eauto.
  - intros H. destruct (IH H) as (h & x & t & ->). eauto.
Qed.

Lemma split_sep_last (p : string) :
  List.last (OsPath.split_sep p) EmptyString = OsPath.basename p.
Proof.
  induction p as [|c r IH]; [reflexivity|].
  cbn [OsPath.split_sep OsPath.basename].
  destruct (OsPath.is_sep c); cbn [orb].
  - pose proof (split_sep_not_nil r).
    destruct (OsPath.split_sep r) as [|x t] eqn:E; [congruence|].
    rewrite <- IH. reflexivity.
  - destruct (OsPath.has_sep r) eqn:Hr.
    + destruct (split_sep_two r Hr) as (h & x & t & E). rewrite E in IH |- *.
      rewrite <- IH. reflexivity.
    + rewrite (split_sep_no_sep r Hr). reflexivity.
Qed.

Lemma split_sep_snoc (p : string) :
  exists l, OsPath.split_sep p = l ++ [OsPath.basename p].
Proof.
  pose proof (split_sep_not_nil p) as Hn. rewrite <- split_sep_last.
  destruct (exists_last Hn) as (l & x & E). rewrite E.
  exists l. rewrite last_last. reflexivity.
Qed.

(** The last component of a path that names a file is its base name. *)
Lemma components_of_file (d : gmap (list string) Node) (p : string) :
  Os.isfile d p = true ->
  exists l, OsPath.components p = l ++ [OsPath.basename p].
Proof.
  unfold Os.isfile, Os.names_dir. intros H.
  apply andb_true_iff in H as [Hreal _]. rewrite negb_involutive in Hreal.
  rewrite split_sep_last in Hreal.
  destruct (split_sep_snoc p) as [l E]. unfold OsPath.components. rewrite E.
  rewrite filter_app, filter_cons_True by (rewrite Hreal; exact I).
  eauto.
Qed.

Lemma cut_last_dot_suffix (s : string) :
  forall r, OsPath.cut_last_dot s = Some r -> exists t, s = r +:+ String "." t.
Proof.
  induction s as [|c s IH]; intros r; simpl; [discriminate|].
  destruct (OsPath.cut_last_dot s) as [r'|].
  - intros [= <-]. destruct (IH r' eq_refl) as [t ->]. exists t. reflexivity.
  - destruct (OsPath.is_dot c) eqn:Hc; [|discriminate]. intros [= <-].
    apply Ascii.eqb_eq in Hc. subst c. exists s. reflexivity.
Qed.

(** [splitext] cuts a name into its root and an extension that is empty or
    starts with a dot. *)
Lemma splitext_root_suffix (q : string) :
  exists suffix,
    q = OsPath.splitext_root q +:+ suffix
    /\ (suffix = EmptyString \/ exists t, suffix = String "." t).
Proof.
  induction q as [|c r IH].
  { exists EmptyString. auto. }
  cbn [OsPath.splitext_root]. destruct (OsPath.is_dot c).
  - destruct IH as (suffix & E & Hs). exists suffix. split; [|exact Hs].
    rewrite append_cons, <- E. reflexivity.
  - destruct (OsPath.cut_last_dot (String c r)) as [root|] eqn:E.
    + destruct (cut_last_dot_suffix _ _ E) as [t Ht]. exists (String "." t). eauto.
    + exists EmptyString. split; [|auto].
      clear. induction (String c r) as [|x a IHa]; [reflexivity|].
      rewrite append_cons, <- IHa. reflexivity.
Qed.

Lemma basename_is_no_page_file self pdf i :
  OsPath.basename pdf <> task_name self pdf i.
Proof.
  unfold task_name, page_file_name.
  destruct (splitext_root_suffix (OsPath.basename pdf)) as (suffix & E & Hs).
  intros H. rewrite E in H at 1. apply append_inj_l in H.
  destruct Hs as [-> | [t ->]]; discriminate H.
Qed.

Lemma source_is_no_page_file (self : App) (d : gmap (list string) Node)
    (pdf out : string) (i : nat) :
  Os.isfile d pdf = true -> OsPath.components pdf <> task_key self pdf out i.
Proof.
  intros Hfile. destruct (components_of_file d pdf Hfile) as [l E].
  rewrite E. unfold task_key. intros H. apply app_inj_tail in H as [_ H].
  exact (basename_is_no_page_file self pdf i H).
Qed.

Lemma task_file_inj self pdf out a b :
  OsPath.components (task_file self pdf out a)
    = OsPath.components (task_file self pdf out b) -> a = b.
Proof. rewrite !task_file_key. apply task_key_inj. Qed.

(** X1. When the document opens and every page goes through, the file of
    page [k+1] is on the disk at the end of the run, in the output
    directory under its own name, and holds the pixmap of that page at the
    scale of the run: no page overwrites another. *)
Theorem every_page_is_on_disk (self : App) (d : gmap (list string) Node)
    (pdf out : string) (doc : list Page) (zoom : float) (k : nat) (page : Page) :
  Fitz.open d pdf = OK doc ->
  truediv (dpi self) 72 = OK zoom ->
  Forall page_ok doc ->
  doc !! k = Some page ->
  w_fs (run_convert self d pdf out) !! task_key self pdf out (S k) =
    Some (File (Image (mkPixmap page (fitz_Matrix zoom zoom)))).
Proof.
  intros Hopen Hzoom Hdoc Hk.
  rewrite (run_convert_ok _ _ _ _ _ _ Hopen Hzoom Hdoc). cbn [w_fs].
  rewrite <- task_file_key.
  exact (save_pages_page _ _ doc (task_file_inj self pdf out) 1%nat d k page Hk).
Qed.

Lemma every_page_is_on_disk_witness :
  let s := Sample.started "docs/deck.pdf" "out" 200 "PNG" in
  w_fs (run_convert (self s) (fs s) "docs/deck.pdf" "out")
    !! ["out"; "deck_page0002.png"] =
  Some (File (Image (mkPixmap Sample.good
                       (fitz_Matrix 0x1.638e38e38e38ep+1 0x1.638e38e38e38ep+1)))).
Proof.
  cbn zeta.
  refine (every_page_is_on_disk
            (self (Sample.started "docs/deck.pdf" "out" 200 "PNG"))
            (fs (Sample.started "docs/deck.pdf" "out" 200 "PNG"))
            "docs/deck.pdf" "out" [Sample.good; Sample.good; Sample.good]
            0x1.638e38e38e38ep+1 1 Sample.good _ _ _ _).
  - vm_compute. reflexivity.
  - vm_compute. reflexivity.
  - repeat constructor.
  - reflexivity.
Defined.

Lemma run_convert_frame (self : App) (d : gmap (list string) Node)
    (pdf out : string) (q : list string) :
  (forall i, q <> task_key self pdf out i) ->
  w_fs (run_convert self d pdf out) !! q = d !! q.
Proof.
  intros Hq. destruct (run_convert_disk self d pdf out) as (doc & zoom & ->).
  apply save_pages_frame. intros j _ Heq. rewrite task_file_key in Heq.
  exact (Hq j (eq_sym Heq)).
Qed.

(** X2. A run of [_convert] changes the disk at the paths of its page files
    only, and removes nothing: whatever else was on the disk is there
    unchanged, and every path that was taken is still taken. *)
Theorem convert_changes_page_files_only (self : App) (d : gmap (list string) Node)
    (pdf out : string) (q : list string) :
  ((forall i, q <> task_key self pdf out i) ->
   w_fs (run_convert self d pdf out) !! q = d !! q)
  /\ (is_Some (d !! q) -> is_Some (w_fs (run_convert self d pdf out) !! q)).
Proof.
  split; [apply run_convert_frame|].
  destruct (run_convert_disk self d pdf out) as (doc & zoom & ->).
  apply save_pages_keeps.
Qed.

Lemma convert_changes_page_files_only_witness :
  let s := Sample.started "docs/deck.pdf" "out" 200 "PNG" in
  w_fs (run_convert (self s) (fs s) "docs/deck.pdf" "out") !! ["docs"; "junk.pdf"]
    = Some (File Garbage).
Proof.
  cbn zeta.
  refine (eq_trans
            (proj1 (convert_changes_page_files_only
                      (self (Sample.started "docs/deck.pdf" "out" 200 "PNG"))
                      (fs (Sample.started "docs/deck.pdf" "out" 200 "PNG"))
                      "docs/deck.pdf" "out" ["docs"; "junk.pdf"]) _) _).
  - intros i. vm_compute. discriminate.
  - vm_compute. reflexivity.
Defined.

Lemma run_convert_keeps_source (self : App) (d : gmap (list string) Node)
    (pdf out : string) :
  Os.isfile d pdf = true ->
  w_fs (run_convert self d pdf out) !! OsPath.components pdf
    = d !! OsPath.components pdf.
Proof.
  intros Hfile. apply run_convert_frame. intros i.
  exact (source_is_no_page_file self d pdf out i Hfile).
Qed.

Lemma convert_keeps_source_open (self : App) (d : gmap (list string) Node)
    (pdf out : string) :
  Os.isfile d pdf = true ->
  Fitz.open (w_fs (run_convert self d pdf out)) pdf = Fitz.open d pdf
  /\ Os.isfile (w_fs (run_convert self d pdf out)) pdf = true.
Proof.
  intros Hfile. pose proof (run_convert_keeps_source self d pdf out Hfile) as H.
  unfold Os.isfile, Fitz.open in *. rewrite H. split; [reflexivity | exact Hfile].
Qed.

(** X3. A run never writes over its own source: when the source path names
    a file, that file is the same after the run, whatever the output
    directory is (the source's own directory included), and opens as it did
    before. *)
Theorem convert_keeps_its_source (self : App) (d : gmap (list string) Node)
    (pdf out : string) :
  Os.isfile d pdf = true ->
  w_fs (run_convert self d pdf out) !! OsPath.components pdf
    = d !! OsPath.components pdf
  /\ Os.isfile (w_fs (run_convert self d pdf out)) pdf = true
  /\ Fitz.open (w_fs (run_convert self d pdf out)) pdf = Fitz.open d pdf.
Proof.
  intros Hfile. pose proof (run_convert_keeps_source self d pdf out Hfile) as H.
  split; [exact H|]. unfold Os.isfile, Fitz.open in *. rewrite H.
  split; [exact Hfile | reflexivity].
Qed.

Lemma convert_keeps_its_source_witness :
  let s := Sample.started "docs/deck.pdf" "docs" 200 "PNG" in
  Fitz.open (w_fs (run_convert (self s) (fs s) "docs/deck.pdf" "docs")) "docs/deck.pdf"
    = OK [Sample.good; Sample.good; Sample.good].
Proof.
  cbn zeta.
  refine (eq_trans
            (proj2 (proj2 (convert_keeps_its_source
                      (self (Sample.started "docs/deck.pdf" "docs" 200 "PNG"))
                      (fs (Sample.started "docs/deck.pdf" "docs" 200 "PNG"))
                      "docs/deck.pdf" "docs" _)) ) _).
  - vm_compute. reflexivity.
  - vm_compute. reflexivity.
Defined.

(** X4. Running the same conversion again on the disk the first run left
    does what the first run did and leaves that disk as it is: the same
    trace, the same callbacks, the same files. *)
Theorem convert_again_changes_nothing (self : App) (d : gmap (list string) Node)
    (pdf out : string) :
  Os.isfile d pdf = true ->
  run_convert self (w_fs (run_convert self d pdf out)) pdf out
    = run_convert self d pdf out.
Proof.
  intros Hfile.
  destruct (convert_keeps_source_open self d pdf out Hfile) as [Hopen' _].
  destruct (Fitz.open d pdf) as [doc|e] eqn:Hopen.
  2: { rewrite (run_convert_open_fails _ d _ _ _ Hopen) in Hopen' |- *.
       cbn [w_fs] in *. apply (run_convert_open_fails _ _ _ _ _ Hopen). }
  destruct (truediv (dpi self) 72) as [zoom|e] eqn:Hzoom.
  2: { rewrite (run_convert_scale_fails _ d _ _ _ _ Hopen Hzoom).
       cbn [w_fs]. apply (run_convert_scale_fails _ _ _ _ _ _ Hopen Hzoom). }
  set (f := task_file self pdf out). set (mat := fitz_Matrix zoom zoom).
  destruct (doc_cases doc) as [Hok | (good & bad & rest & e & -> & Hgood & Hbad)].
  - rewrite (run_convert_ok _ d _ _ _ _ Hopen Hzoom Hok) in Hopen' |- *.
    cbn [w_fs] in *. rewrite (run_convert_ok _ _ _ _ _ _ Hopen' Hzoom Hok).
    f_equal. apply save_pages_again. intros k page Hk.
    exact (save_pages_page f mat doc (task_file_inj self pdf out) 1%nat d k page Hk).
  - rewrite (run_convert_page_fails _ d _ _ _ _ _ _ _ Hopen Hzoom Hgood Hbad)
      in Hopen' |- *.
    cbn [w_fs] in *.
    rewrite (run_convert_page_fails _ _ _ _ _ _ _ _ _ Hopen' Hzoom Hgood Hbad).
    f_equal. apply save_pages_again. intros k page Hk.
    exact (save_pages_page f mat good (task_file_inj self pdf out) 1%nat d k page Hk).
Qed.

Lemma convert_again_changes_nothing_witness :
  let s := Sample.started "docs/torn.pdf" "docs" 200 "PNG" in
  let w := run_convert (self s) (fs s) "docs/torn.pdf" "docs" in
  Os.isfile (fs s) "docs/torn.pdf" = true
  /\ run_convert (self s) (w_fs w) "docs/torn.pdf" "docs" = w.
Proof.
  cbn zeta.
  assert (H : Os.isfile (fs (Sample.started "docs/torn.pdf" "docs" 200 "PNG"))
                "docs/torn.pdf" = true) by (vm_compute; reflexivity).
  split; [exact H|]. exact (convert_again_changes_nothing _ _ _ _ H).
Defined.

(** ** The callbacks of a run *)



(** X6. When page [k] fails after the pages before it went through, the
    loop stops there: the pages 1 to [k] are the only ones rendered, the
    callbacks queued are the two opening ones, those of the pages before
    [k] and the error callback, the files of the pages before [k] are on the
    disk, and nothing is written for page [k] or any later page. *)
Theorem page_failure_stops_the_loop (self : App) (d : gmap (list string) Node)
    (pdf out : string) (good : list Page) (bad : Page) (rest : list Page)
    (e : string) (zoom : float) :
  Fitz.open d pdf = OK (good ++ bad :: rest) ->
  truediv (dpi self) 72 = OK zoom ->
  Forall page_ok good ->
  page_fails bad e ->
  let w := run_convert self d pdf out in
  let k := S (length good) in
  render_calls (w_trace w) = map (fun j => (j, fitz_Matrix zoom zoom)) (seq 1 k)
  /\ scheduled w =
       [lam_progress_init; lam_log_start]
         ++ update_closures (task_file self pdf out) 1 (length good)
         ++ [lam_conversion_error]
  /\ (forall j page, good !! j = Some page ->
        w_fs w !! task_key self pdf out (S j) =
          Some (File (Image (mkPixmap page (fitz_Matrix zoom zoom)))))
  /\ (forall i, (k <= i)%nat ->
        w_fs w !! task_key self pdf out i = d !! task_key self pdf out i).
Proof.
  intros Hopen Hzoom Hgood Hbad. cbn zeta.
  split; [|split; [exact (scheduled_page_fails _ _ _ _ _ _ _ _ _ Hopen Hzoom Hgood Hbad)|]].
  - rewrite (run_convert_page_fails _ _ _ _ _ _ _ _ _ Hopen Hzoom Hgood Hbad).
    cbn [w_trace].
    rewrite !render_calls_app, render_calls_page_effects,
      render_calls_failing_effects.
    change (render_calls [open_call pdf; fmt_get_call; dpi_get_call;
                          after_call lam_progress_init; after_call lam_log_start])
      with (@nil (nat * Matrix)).
    change (render_calls [after_call lam_conversion_error])
      with (@nil (nat * Matrix)).
    rewrite app_nil_l, app_nil_r, seq_S, map_app. reflexivity.
  - rewrite (run_convert_page_fails _ _ _ _ _ _ _ _ _ Hopen Hzoom Hgood Hbad).
    cbn [w_fs]. split.
    + intros j page Hj. rewrite <- task_file_key.
      exact (save_pages_page _ _ good (task_file_inj self pdf out) 1%nat d j page Hj).
    + intros i Hi. apply save_pages_frame. intros j Hj Heq.
      rewrite task_file_key in Heq. apply task_key_inj in Heq. lia.
Qed.

Lemma page_failure_stops_the_loop_witness :
  let s := Sample.started "docs/full.pdf" "out" 200 "PNG" in
  let w := run_convert (self s) (fs s) "docs/full.pdf" "out" in
  render_calls (w_trace w) =
    map (fun j => (j, fitz_Matrix 0x1.638e38e38e38ep+1 0x1.638e38e38e38ep+1)) (seq 1 2)
  /\ w_fs w !! ["out"; "full_page0002.png"] = None.
Proof.
  cbn zeta.
  destruct (page_failure_stops_the_loop
              (self (Sample.started "docs/full.pdf" "out" 200 "PNG"))
              (fs (Sample.started "docs/full.pdf" "out" 200 "PNG"))
              "docs/full.pdf" "out" [Sample.good] Sample.unsavable [Sample.good]
              "[Errno 28] No space left on device" 0x1.638e38e38e38ep+1)
    as (Hr & _ & _ & Hlater).
  - vm_compute. reflexivity.
  - vm_compute. reflexivity.
  - repeat constructor.
  - right. split; reflexivity.
  - split; [exact Hr|].
    refine (eq_trans (Hlater 2%nat _) _); [cbn; lia | vm_compute; reflexivity].
Defined.

(** ** The window while and after a task *)

Lemma page_log_cons f total i n :
  page_log f total i (S n) =
    log_page i total (OsPath.basename (f i)) :: page_log f total (S i) n.
Proof. reflexivity. Qed.

Ltac run_window :=
  cbv [after_success after_pages on_app perform _update_progress _conversion_done
       _conversion_error _log messagebox configure_app modify bind ret gets
       add_dialog set_fs set_text_log set_label_status set_progress_value
       set_progress_maximum set_is_running set_btn_run set_pdf_path set_output_dir
       self fs dialogs threads reported snd fst
       pdf_path output_dir dpi fmt is_running progress_maximum progress_value
       label_status text_log btn_run].

Lemma after_pages_step (f : nat -> string) (total i n : nat) (s : Sys) :
  after_pages f total (S i) n (snd (perform (call_update_progress i total (f i)) s))
  = after_pages f total i (S n) s.
Proof.
  destruct s as [a d dl th rp]. destruct a as [pp od dp fm ir pmx pv ls tl br].
  destruct n as [|m].
  - run_window. rewrite Nat.add_0_r. reflexivity.
  - unfold after_pages. rewrite (page_log_cons f total i (S m)). run_window.
    rewrite <- app_assoc, Nat.add_succ_r. reflexivity.
Qed.

Lemma mainloop_updates_state cells f total n :
  v_total cells = Some total ->
  forall i s,
    snd (mainloop cells (update_closures f i n) s) = after_pages f total i n s.
Proof.
  intros Ht. unfold update_closures.
  induction n as [|n IH]; intros i s; [reflexivity|].
  cbn [seq map mainloop eval_closure]. rewrite Ht. cbn [read_cell].
  specialize (IH (S i) (snd (perform (call_update_progress i total (f i)) s))).
  destruct (mainloop cells _ _) as [evs s2]. cbn [snd] in IH |- *.
  rewrite IH. apply after_pages_step.
Qed.

Lemma success_steps (self0 : App) (f : nat -> string) (N : nat) (out : string)
    (d' : gmap (list string) Node) (s : Sys) :
  snd (perform (call_conversion_done N out)
         (after_pages f N 1 N
            (snd (perform (call_log (log_start N (dpi self0)
                                       (PyStr.upper (PyStr.lower (fmt self0)))))
                    (snd (perform (call_progress_configure N 0) (set_fs d' s)))))))
  = after_success self0 f N out d' s.
Proof.
  destruct s as [a d dl th rp]. destruct a as [pp od dp fm ir pmx pv ls tl br].
  destruct N as [|m]; run_window; rewrite <- !app_assoc; reflexivity.
Qed.

Lemma task_success_state (s : Sys) (pdf out : string) (doc : list Page)
    (zoom : float) :
  Fitz.open (fs s) pdf = OK doc ->
  truediv (dpi (self s)) 72 = OK zoom ->
  Forall page_ok doc ->
  snd (task s pdf out) =
    after_success (self s) (task_file (self s) pdf out) (length doc) out
      (save_pages (task_file (self s) pdf out) (fitz_Matrix zoom zoom) 1 doc (fs s))
      s.
Proof.
  intros Hopen Hzoom Hdoc. unfold task.
  rewrite (scheduled_ok _ _ _ _ _ _ Hopen Hzoom Hdoc).
  rewrite (run_convert_ok _ _ _ _ _ _ Hopen Hzoom Hdoc). cbn [w_cells w_fs].
  set (cells := cells_of (self s) out (length doc)).
  assert (Ht : v_total cells = Some (length doc)) by reflexivity.
  cbn [app mainloop eval_closure]. rewrite Ht.
  cbn [read_cell v_dpi v_ext cells cells_of].
  rewrite mainloop_app. cbn [fst snd].
  rewrite (mainloop_updates_state _ _ _ _ Ht).
  cbn [mainloop eval_closure]. rewrite Ht. cbn [read_cell v_output_dir cells cells_of].
  cbn [snd]. apply success_steps.
Qed.

(** X7. After a task whose pages all went through, once the main loop has
    run its callbacks: the flag is clear and the button enabled again, the
    status is "done", the progress bar stands at [N] of [N], the log has
    gained the opening line, one line per page in order and the closing
    line, exactly one information box was shown, and the disk holds the
    pages; the paths, the DPI and the format in the window are as before. *)
Theorem task_success_end_state (s : Sys) (pdf out : string) (doc : list Page)
    (zoom : float) :
  Fitz.open (fs s) pdf = OK doc ->
  truediv (dpi (self s)) 72 = OK zoom ->
  Forall page_ok doc ->
  snd (task s pdf out) =
    after_success (self s) (task_file (self s) pdf out) (length doc) out
      (save_pages (task_file (self s) pdf out) (fitz_Matrix zoom zoom) 1 doc (fs s))
      s.
Proof. apply task_success_state. Qed.

Lemma task_success_end_state_witness :
  let s := Sample.started "docs/deck.pdf" "out" 200 "PNG" in
  let s' := snd (task s "docs/deck.pdf" "out") in
  is_running (self s) = true
  /\ is_running (self s') = false
  /\ btn_run (self s') = normal
  /\ progress_value (self s') = 3%nat
  /\ text_log (self s') =
       [log_start 3 200 "PNG"; log_page 1 3 "deck_page0001.png";
        log_page 2 3 "deck_page0002.png"; log_page 3 3 "deck_page0003.png";
        log_done 3 "out"]
  /\ dialogs s' = [showinfo (msg_saved 3)].
Proof.
  cbn zeta.
  rewrite (task_success_end_state
             (Sample.started "docs/deck.pdf" "out" 200 "PNG")
             "docs/deck.pdf" "out" [Sample.good; Sample.good; Sample.good]
             0x1.638e38e38e38ep+1).
  - vm_compute. repeat split; reflexivity.
  - vm_compute. reflexivity.
  - vm_compute. reflexivity.
  - repeat constructor.
Defined.

Lemma take_update_closures f :
  forall k n i, (k <= n)%nat ->
    take k (update_closures f i n) = update_closures f i k.
Proof.
  unfold update_closures.
  induction k as [|k IH]; intros n i Hk; [reflexivity|].
  destruct n as [|n]; [lia|]. cbn. f_equal. apply IH. lia.
Qed.

(** X8. While the main loop works through the callbacks of a task whose
    pages all go through, once it has run the two opening callbacks and
    those of the first [k] pages the progress bar stands at [k] of [N], and
    the flag, the start button and the message boxes are untouched: the
    flag is cleared by the final callback and not before. *)
Theorem progress_follows_the_pages (s : Sys) (pdf out : string)
    (doc : list Page) (zoom : float) (k : nat) :
  Fitz.open (fs s) pdf = OK doc ->
  truediv (dpi (self s)) 72 = OK zoom ->
  Forall page_ok doc ->
  (k <= length doc)%nat ->
  let w := run_convert (self s) (fs s) pdf out in
  let s_k := snd (mainloop (w_cells w) (take (2 + k) (scheduled w))
                    (set_fs (w_fs w) s)) in
  progress_value (self s_k) = k
  /\ progress_maximum (self s_k) = length doc
  /\ is_running (self s_k) = is_running (self s)
  /\ btn_run (self s_k) = btn_run (self s)
  /\ dialogs s_k = dialogs s.
Proof.
  intros Hopen Hzoom Hdoc Hk. cbn zeta.
  rewrite (scheduled_ok _ _ _ _ _ _ Hopen Hzoom Hdoc).
  rewrite (run_convert_ok _ _ _ _ _ _ Hopen Hzoom Hdoc). cbn [w_cells w_fs].
  set (cells := cells_of (self s) out (length doc)).
  assert (Ht : v_total cells = Some (length doc)) by reflexivity.
  change (take (2 + k) ([lam_progress_init; lam_log_start]
            ++ update_closures (task_file (self s) pdf out) 1 (length doc)
            ++ [lam_conversion_done]))
    with (lam_progress_init :: lam_log_start
            :: take k (update_closures (task_file (self s) pdf out) 1 (length doc)
                         ++ [lam_conversion_done])).
  rewrite take_app_le by (unfold update_closures; rewrite length_map, length_seq; exact Hk).
  rewrite (take_update_closures _ _ _ _ Hk).
  cbn [mainloop eval_closure]. rewrite Ht.
  cbn [read_cell v_dpi v_ext cells cells_of].
  match goal with
  | |- context [mainloop cells (update_closures ?f 1 k) ?s0] =>
      pose proof (mainloop_updates_state cells f _ k Ht 1%nat s0) as Hst;
      destruct (mainloop cells (update_closures f 1 k) s0) as [evs s1]
  end.
  cbn [snd] in Hst |- *. subst s1.
  destruct s as [a d dl th rp]. destruct a as [pp od dp fm ir pmx pv ls tl br].
  destruct k as [|m]; run_window; auto.
Qed.

Lemma progress_follows_the_pages_witness :
  let s := Sample.started "docs/deck.pdf" "out" 200 "PNG" in
  let w := run_convert (self s) (fs s) "docs/deck.pdf" "out" in
  let s_2 := snd (mainloop (w_cells w) (take 4 (scheduled w)) (set_fs (w_fs w) s)) in
  progress_value (self s_2) = 2%nat
  /\ progress_maximum (self s_2) = 3%nat
  /\ is_running (self s_2) = true.
Proof.
  cbn zeta.
  destruct (progress_follows_the_pages
              (Sample.started "docs/deck.pdf" "out" 200 "PNG")
              "docs/deck.pdf" "out" [Sample.good; Sample.good; Sample.good]
              0x1.638e38e38e38ep+1 2)
    as (Hv & Hm & Hr & _).
  - vm_compute. reflexivity.
  - vm_compute. reflexivity.
  - repeat constructor.
  - cbn. lia.
  - split; [exact Hv|]. split; [exact Hm|].
    refine (eq_trans Hr _). vm_compute. reflexivity.
Defined.

(** ** More on starting *)

Lemma forallb_negb_existsb {A} (p : A -> bool) (l : list A) :
  forallb (fun x => negb (p x)) l = negb (existsb p l).
Proof.
  induction l as [|x l IH]; [reflexivity|]. cbn. rewrite IH.
  destruct (p x); reflexivity.
Qed.

Lemma is_file_at_insert_dir (d : gmap (list string) Node) (q q' : list string) :
  q <> q' -> is_file_at (<[q := Dir]> d) q' = is_file_at d q'.
Proof. intros H. unfold is_file_at. rewrite lookup_insert_ne by exact H. reflexivity. Qed.

(** A file in the way makes [os.makedirs] raise. *)
Lemma mkdirs_from_blocked rest :
  forall above (d : gmap (list string) Node),
    existsb (is_file_at d) (prefixes_from above rest) = true ->
    exists e, Os.mkdirs_from d above rest = Err e.
Proof.
  induction rest as [|c rest IH]; intros above d Hex; [discriminate|].
  cbn [prefixes_from existsb Os.mkdirs_from] in *.
  unfold is_file_at at 1 in Hex.
  destruct (d !! (above ++ [c])) as [[|content]|] eqn:E; cbn [orb] in Hex.
  - apply IH. exact Hex.
  - eauto.
  - apply IH. apply existsb_exists in Hex as (q & Hin & Hq).
    apply existsb_exists. exists q. split; [exact Hin|].
    rewrite is_file_at_insert_dir; [exact Hq|].
    intros <-. apply prefixes_from_longer in Hin. lia.
Qed.

Lemma makedirs_blocked (d : gmap (list string) Node) (p : string) :
  creatable d p = false -> exists e, Os.makedirs d p = Err e.
Proof.
  unfold creatable. rewrite forallb_negb_existsb. intros H.
  apply negb_false_iff in H. exact (mkdirs_from_blocked _ _ _ H).
Qed.

(** Whenever [os.makedirs] returns, the directory and its parents are
    there and nothing that was on the disk is lost. *)
Lemma makedirs_result (d d' : gmap (list string) Node) (p : string) :
  Os.makedirs d p = OK d' ->
  Forall (fun q => d' !! q = Some Dir) (dir_and_parents p)
  /\ (forall q v, d !! q = Some v -> d' !! q = Some v).
Proof.
  intros H. destruct (creatable d p) eqn:Hc.
  - destruct (makedirs_ok d p Hc) as (d'' & H' & Hdirs & Hkeep & _).
    assert (d'' = d') by congruence. subst d''. split; assumption.
  - destruct (makedirs_blocked d p Hc) as [e He]. congruence.
Qed.

(** X9. When a file stands where the output directory or one of its
    parents has to be, [_start_conversion] raises the error of
    [os.makedirs] and leaves everything as it was: the flag is not set, the
    button stays enabled, no thread is started and no message box shown. *)
Theorem start_blocked_by_a_file (s : Sys) :
  inputs_pass s ->
  is_running (self s) = false ->
  creatable (fs s) (PyStr.strip (output_dir (self s))) = false ->
  exists e, _start_conversion s = (Err e, s).
Proof.
  intros Hin Hidle Hc. destruct (makedirs_blocked _ _ Hc) as [e He].
  exists e. rewrite (start_unfold s Hin), Hidle, He. reflexivity.
Qed.

Lemma start_blocked_by_a_file_witness :
  let s := Sample.idle "docs/deck.pdf" "docs/junk.pdf/img" 200 "PNG" in
  exists e, _start_conversion s = (Err e, s).
Proof.
  cbn zeta.
  apply (start_blocked_by_a_file
           (Sample.idle "docs/deck.pdf" "docs/junk.pdf/img" 200 "PNG")).
  - vm_compute. repeat split; reflexivity.
  - vm_compute. reflexivity.
  - vm_compute. reflexivity.
Defined.

(** X10. Whatever the state, [_start_conversion] loses nothing that is on
    the disk and leaves the paths, the DPI, the format, the log and the
    progress bar alone. It starts at most one thread, and only from a state
    whose flag is clear and whose inputs pass the checks; it then returns
    with the flag set, the button disabled, the output directory and its
    parents in place, and the source still a file. When it starts no thread
    the flag is as it was. *)
Theorem start_keeps_the_disk_and_guards_the_thread (s : Sys) :
  let r := _start_conversion s in
  let s' := snd r in
  (forall q v, fs s !! q = Some v -> fs s' !! q = Some v)
  /\ (pdf_path (self s') = pdf_path (self s)
      /\ output_dir (self s') = output_dir (self s)
      /\ dpi (self s') = dpi (self s) /\ fmt (self s') = fmt (self s)
      /\ text_log (self s') = text_log (self s)
      /\ progress_value (self s') = progress_value (self s)
      /\ progress_maximum (self s') = progress_maximum (self s))
  /\ ((threads s' = threads s /\ is_running (self s') = is_running (self s))
      \/ (fst r = OK tt
          /\ inputs_pass s
          /\ is_running (self s) = false
          /\ is_running (self s') = true
          /\ btn_run (self s') = disabled
          /\ threads s' =
               threads s ++ [(PyStr.strip (pdf_path (self s)),
                              PyStr.strip (output_dir (self s)))]
          /\ Forall (fun q => fs s' !! q = Some Dir)
               (dir_and_parents (PyStr.strip (output_dir (self s))))
          /\ Os.isfile (fs s') (PyStr.strip (pdf_path (self s))) = true)).
Proof.
  cbn zeta.
  destruct (PyStr.falsy (PyStr.strip (pdf_path (self s)))) eqn:Hpdf.
  { rewrite (start_rejects_source s (or_introl Hpdf)). cbn. auto 10. }
  destruct (Os.isfile (fs s) (PyStr.strip (pdf_path (self s)))) eqn:Hfile.
  2: { rewrite (start_rejects_source s (or_intror Hfile)). cbn. auto 10. }
  destruct (PyStr.falsy (PyStr.strip (output_dir (self s)))) eqn:Hout.
  { rewrite (start_rejects_output s Hpdf Hfile Hout). cbn. auto 10. }
  assert (Hin : inputs_pass s) by (repeat split; assumption).
  rewrite (start_unfold s Hin).
  destruct (is_running (self s)) eqn:Hrun; [cbn; auto 10|].
  destruct (Os.makedirs (fs s) (PyStr.strip (output_dir (self s)))) as [d'|e] eqn:Hmk;
    [|cbn; auto 10].
  destruct (makedirs_result _ _ _ Hmk) as [Hdirs Hkeep].
  cbn. split; [exact Hkeep|]. split; [auto 10|]. right.
  split; [reflexivity|]. split; [exact Hin|].
  do 4 (split; [reflexivity|]).
  split; [exact Hdirs|]. exact (isfile_kept _ _ _ Hkeep Hfile).
Qed.

(** ** One conversion after another *)

Lemma prefixes_from_short rest :
  forall above q, In q (prefixes_from above rest) ->
                  (length q <= length above + length rest)%nat.
Proof.
  induction rest as [|c rest IH]; intros above q; simpl; [tauto|].
  intros [<- | Hq].
  - rewrite length_app. simpl. lia.
  - apply IH in Hq. rewrite length_app in Hq. simpl in Hq. lia.
Qed.

Lemma mkdirs_from_existing rest :
  forall above (d : gmap (list string) Node),
    Forall (fun q => d !! q = Some Dir) (prefixes_from above rest) ->
    Os.mkdirs_from d above rest = OK d.
Proof.
  induction rest as [|c rest IH]; intros above d H; [reflexivity|].
  cbn [prefixes_from Os.mkdirs_from] in *.
  inversion H as [|q l Hq Hrest]; subst. rewrite Hq. apply IH. exact Hrest.
Qed.

Lemma fitz_open_kept (d d' : gmap (list string) Node) (p : string) doc :
  (forall q v, d !! q = Some v -> d' !! q = Some v) ->
  Fitz.open d p = OK doc -> Fitz.open d' p = OK doc.
Proof.
  intros Hkeep. unfold Fitz.open.
  destruct (d !! OsPath.components p) as [[|[]]|] eqn:E; try discriminate.
  rewrite (Hkeep _ _ E). exact (fun H => H).
Qed.

(** The directory of a run and its parents are not page files. *)
Lemma dirs_are_no_page_files self pdf out i q :
  In q (dir_and_parents out) -> q <> task_key self pdf out i.
Proof.
  intros Hin ->. apply prefixes_from_short in Hin.
  unfold task_key in Hin. rewrite length_app in Hin. simpl in Hin. lia.
Qed.

(** X11. A conversion that goes through leaves the window ready for the
    next one: after [_start_conversion], the task and its callbacks, the
    flag is clear, and pressing start again with the same inputs passes the
    checks (the source is still there), starts a second thread with the same
    arguments, sets the flag again and makes no directory. *)
Theorem start_again_after_success (s : Sys) (doc : list Page) (zoom : float) :
  let pdf := PyStr.strip (pdf_path (self s)) in
  let out := PyStr.strip (output_dir (self s)) in
  inputs_pass s ->
  is_running (self s) = false ->
  creatable (fs s) out = true ->
  Fitz.open (fs s) pdf = OK doc ->
  truediv (dpi (self s)) 72 = OK zoom ->
  Forall page_ok doc ->
  exists s1 s3,
    _start_conversion s = (OK tt, s1)
    /\ is_running (self s1) = true
    /\ is_running (self (snd (task s1 pdf out))) = false
    /\ _start_conversion (snd (task s1 pdf out)) = (OK tt, s3)
    /\ threads s3 = threads s ++ [(pdf, out); (pdf, out)]
    /\ is_running (self s3) = true
    /\ fs s3 = fs (snd (task s1 pdf out)).
Proof.
  cbn zeta. intros Hin Hidle Hfree Hopen Hzoom Hdoc.
  set (pdf := PyStr.strip (pdf_path (self s))) in *.
  set (out := PyStr.strip (output_dir (self s))) in *.
  destruct (makedirs_ok _ _ Hfree) as (d1 & Hmk & Hdirs & Hkeep & _).
  set (s1 := add_thread pdf out
               (on_app (set_btn_run disabled)
                  (on_app (set_is_running true) (set_fs d1 s)))).
  assert (Hstart : _start_conversion s = (OK tt, s1)).
  { rewrite (start_unfold s Hin), Hidle. fold out. rewrite Hmk. reflexivity. }
  assert (Hopen1 : Fitz.open (fs s1) pdf = OK doc)
    by exact (fitz_open_kept _ _ _ _ Hkeep Hopen).
  assert (Hzoom1 : truediv (dpi (self s1)) 72 = OK zoom) by exact Hzoom.
  pose proof (task_success_state s1 pdf out doc zoom Hopen1 Hzoom1 Hdoc) as Hend.
  set (s2 := snd (task s1 pdf out)) in *.
  assert (Hfs2 : fs s2 = w_fs (run_convert (self s1) d1 pdf out)).
  { rewrite Hend. rewrite (run_convert_ok _ _ _ _ _ _ Hopen1 Hzoom1 Hdoc).
    reflexivity. }
  destruct Hin as (Hpdf & Hfile & Hout).
  assert (Hfile1 : Os.isfile d1 pdf = true) by exact (isfile_kept _ _ _ Hkeep Hfile).
  assert (Hpp : pdf_path (self s2) = pdf_path (self s)) by (rewrite Hend; reflexivity).
  assert (Hod : output_dir (self s2) = output_dir (self s)) by (rewrite Hend; reflexivity).
  assert (Hth : threads s2 = threads s ++ [(pdf, out)]) by (rewrite Hend; reflexivity).
  assert (Hidle2 : is_running (self s2) = false) by (rewrite Hend; reflexivity).
  assert (Hin2 : inputs_pass s2).
  { unfold inputs_pass. rewrite Hpp, Hod. fold pdf out.
    split; [exact Hpdf|]. split; [|exact Hout]. rewrite Hfs2.
    exact (proj2 (convert_keeps_source_open (self s1) d1 pdf out Hfile1)). }
  assert (Hmk2 : Os.makedirs (fs s2) (PyStr.strip (output_dir (self s2))) = OK (fs s2)).
  { rewrite Hod. fold out.
    apply mkdirs_from_existing. apply List.Forall_forall. intros q Hq.
    rewrite Hfs2, run_convert_frame.
    - rewrite List.Forall_forall in Hdirs. exact (Hdirs q Hq).
    - intros i. exact (dirs_are_no_page_files _ _ _ i q Hq). }
  exists s1.
  exists (add_thread pdf out
            (on_app (set_btn_run disabled)
               (on_app (set_is_running true) (set_fs (fs s2) s2)))).
  fold s2.
  split; [exact Hstart|]. split; [reflexivity|].
  split; [exact Hidle2|].
  split; [rewrite (start_unfold s2 Hin2), Hidle2, Hmk2, Hpp, Hod; reflexivity|].
  split; [|split; reflexivity].
  cbn [threads add_thread on_app set_fs]. rewrite Hth, <- app_assoc. reflexivity.
Qed.

Lemma start_again_after_success_witness :
  let s := Sample.idle "docs/deck.pdf" "out" 200 "PNG" in
  exists s1 s3,
    _start_conversion s = (OK tt, s1)
    /\ is_running (self s1) = true
    /\ is_running (self (snd (task s1 "docs/deck.pdf" "out"))) = false
    /\ _start_conversion (snd (task s1 "docs/deck.pdf" "out")) = (OK tt, s3)
    /\ threads s3 = [("docs/deck.pdf", "out"); ("docs/deck.pdf", "out")]
    /\ is_running (self s3) = true
    /\ fs s3 = fs (snd (task s1 "docs/deck.pdf" "out")).
Proof.
  cbn zeta.
  apply (start_again_after_success
           (Sample.idle "docs/deck.pdf" "out" 200 "PNG")
           [Sample.good; Sample.good; Sample.good] 0x1.638e38e38e38ep+1).
  - vm_compute. repeat split; reflexivity.
  - vm_compute. reflexivity.
  - vm_compute. reflexivity.
  - vm_compute. reflexivity.
  - vm_compute. reflexivity.
  - repeat constructor.
Defined.

(** ** Choosing the file and the folder *)

Lemma browse_pdf_chosen (s : Sys) (p : string) :
  PyStr.falsy p = false ->
  _browse_pdf p s =
    (OK tt,
     if PyStr.falsy (output_dir (self s))
     then on_app (set_output_dir (OsPath.dirname p)) (on_app (set_pdf_path p) s)
     else on_app (set_pdf_path p) s).
Proof.
  intros Hp. unfold _browse_pdf, bind, gets, configure_app, modify, ret.
  rewrite Hp. cbn. destruct (PyStr.falsy (output_dir (self s))); reflexivity.
Qed.

(** X12. The folder of a chosen PDF is only a default for the output
    folder. With the output field empty, choosing a PDF sets the output
    folder to the folder of that PDF; choosing another PDF afterwards
    changes the source and keeps that output folder, also when the new PDF
    is somewhere else; a folder chosen by hand replaces it and leaves the
    source alone. Cancelling either dialog changes nothing. *)
Theorem output_folder_defaults_to_the_first_pdf (s : Sys) (p1 p2 : string) :
  PyStr.falsy (output_dir (self s)) = true ->
  PyStr.falsy p1 = false ->
  PyStr.falsy (OsPath.dirname p1) = false ->
  PyStr.falsy p2 = false ->
  let s1 := snd (_browse_pdf p1 s) in
  let s2 := snd (_browse_pdf p2 s1) in
  (pdf_path (self s1) = p1 /\ output_dir (self s1) = OsPath.dirname p1)
  /\ (pdf_path (self s2) = p2 /\ output_dir (self s2) = OsPath.dirname p1)
  /\ (forall o, PyStr.falsy o = false ->
        output_dir (self (snd (_browse_output o s2))) = o
        /\ pdf_path (self (snd (_browse_output o s2))) = p2)
  /\ _browse_pdf EmptyString s2 = (OK tt, s2)
  /\ _browse_output EmptyString s2 = (OK tt, s2).
Proof.
  intros Hout Hp1 Hd1 Hp2. cbn zeta.
  rewrite (browse_pdf_chosen s p1 Hp1), Hout. cbn [snd].
  rewrite (browse_pdf_chosen _ p2 Hp2). cbn [snd self on_app output_dir set_output_dir].
  rewrite Hd1. cbn. split; [auto|]. split; [auto|]. split; [|auto].
  intros o Ho. unfold _browse_output. rewrite Ho. cbn. auto.
Qed.

Lemma output_folder_defaults_to_the_first_pdf_witness :
  let s := Sample.idle "" "" 200 "PNG" in
  let s1 := snd (_browse_pdf "/home/u/docs/deck.pdf" s) in
  let s2 := snd (_browse_pdf "/tmp/other.pdf" s1) in
  output_dir (self s1) = "/home/u/docs"
  /\ pdf_path (self s2) = "/tmp/other.pdf"
  /\ output_dir (self s2) = "/home/u/docs".
Proof.
  cbn zeta.
  destruct (output_folder_defaults_to_the_first_pdf
              (Sample.idle "" "" 200 "PNG") "/home/u/docs/deck.pdf" "/tmp/other.pdf")
    as ((_ & H1) & (H2 & H3) & _).
  - vm_compute. reflexivity.
  - vm_compute. reflexivity.
  - vm_compute. reflexivity.
  - vm_compute. reflexivity.
  - split; [exact H1|]. split; [exact H2 | exact H3].
Defined.

Lemma strip_empty_inv (p : string) :
  PyStr.falsy (PyStr.strip p) = false -> PyStr.falsy p = false.
Proof. destruct p; [discriminate | reflexivity]. Qed.

(** X13. Choosing an existing PDF with the output field empty and pressing
    start converts into the folder of the PDF: the thread is started with
    the source path and its folder, both stripped, and, the folder being
    there already, no directory is made. *)
Theorem browse_then_start (s : Sys) (p : string) :
  let pdf := PyStr.strip p in
  let out := PyStr.strip (OsPath.dirname p) in
  PyStr.falsy (output_dir (self s)) = true ->
  is_running (self s) = false ->
  PyStr.falsy pdf = false ->
  Os.isfile (fs s) pdf = true ->
  PyStr.falsy out = false ->
  Forall (fun q => fs s !! q = Some Dir) (dir_and_parents out) ->
  exists s2,
    _start_conversion (snd (_browse_pdf p s)) = (OK tt, s2)
    /\ threads s2 = threads s ++ [(pdf, out)]
    /\ is_running (self s2) = true
    /\ fs s2 = fs s.
Proof.
  cbn zeta. intros Hempty Hidle Hpdf Hfile Hout Hdirs.
  rewrite (browse_pdf_chosen s p (strip_empty_inv p Hpdf)), Hempty. cbn [snd].
  set (s1 := on_app (set_output_dir (OsPath.dirname p)) (on_app (set_pdf_path p) s)).
  assert (Hin : inputs_pass s1) by (repeat split; assumption).
  rewrite (start_unfold s1 Hin).
  change (is_running (self s1)) with (is_running (self s)). rewrite Hidle.
  change (Os.makedirs (fs s1) (PyStr.strip (output_dir (self s1))))
    with (Os.makedirs (fs s) (PyStr.strip (OsPath.dirname p))).
  unfold Os.makedirs. rewrite (mkdirs_from_existing _ _ _ Hdirs).
  eexists. split; [reflexivity|]. cbn. auto.
Qed.

Lemma browse_then_start_witness :
  let s := Sample.idle "" "" 200 "PNG" in
  exists s2,
    _start_conversion (snd (_browse_pdf "docs/deck.pdf" s)) = (OK tt, s2)
    /\ threads s2 = [("docs/deck.pdf", "docs")]
    /\ is_running (self s2) = true
    /\ fs s2 = fs s.
Proof.
  cbn zeta.
  apply (browse_then_start (Sample.idle "" "" 200 "PNG") "docs/deck.pdf").
  - vm_compute. reflexivity.
  - vm_compute. reflexivity.
  - vm_compute. reflexivity.
  - vm_compute. reflexivity.
  - vm_compute. reflexivity.
  - vm_compute. repeat constructor.
Defined.
